(** * TNGDSearch: a shallow embedding of [api/app/clients/tools/TNGDSearch.js]

    The tool resolves its configuration in its constructor, and its [_call]
    method validates the input with a Zod schema, asks an embedding service
    for a vector, queries a Pinecone index and renders the matches as text.

    JavaScript values are embedded as the inductive [JsVal]; exceptions are an
    explicit [Throw] result; the calls to the logger and to the two services
    are recorded, in order, in a trace that every effectful function threads.
    The external libraries ([@azure/openai], [@pinecone-database/pinecone]) and
    the IEEE numbers of JavaScript are parameters of the development. *)

From stdpp Require Import base option list strings pretty gmap.

Set Warnings "-register-all".
Open Scope string_scope.

(** ** JavaScript values *)

(** [Num] stands for the numbers of JavaScript. Strings are byte strings;
    objects are finite maps from own property names to values. *)
Inductive JsVal (Num : Type) : Type :=
| JUndefined
| JNull
| JBool (b : bool)
| JNum (n : Num)
| JStr (s : string)
| JArr (elems : list (JsVal Num))
| JObj (props : gmap string (JsVal Num)).

Arguments JUndefined {Num}.
Arguments JNull {Num}.
Arguments JBool {Num} b.
Arguments JNum {Num} n.
Arguments JStr {Num} s.
Arguments JArr {Num} elems.
Arguments JObj {Num} props.

(** What the language needs to know about its numbers: which ones are truthy
    (all but [0], [-0] and [NaN]) and how [ToString] prints them. *)
Class JsNumber (Num : Type) : Type := {
  num_truthy : Num -> bool;
  num_to_string : Num -> string
}.

(** ** Exceptions and results *)

(** [JsError msg] is [throw new Error(msg)] of the tool itself; [TypeError] is
    raised by the language (a property read on [undefined] or [null], a
    [for...of] over a value that is not iterable, a failed [ToString]);
    [ZodError] by [schema.parse]; [External v] is the value [v] thrown by a
    library or a service. *)
Inductive Exn (Num : Type) : Type :=
| JsError (msg : string)
| TypeError
| ZodError
| External (thrown : JsVal Num).

Arguments JsError {Num} msg.
Arguments TypeError {Num}.
Arguments ZodError {Num}.
Arguments External {Num} thrown.

Inductive Result (E A : Type) : Type :=
| Ok (a : A)
| Throw (e : E).

Arguments Ok {E A} a.
Arguments Throw {E A} e.

#[global] Instance Result_ret {E} : MRet (Result E) := fun _ a => Ok a.

#[global] Instance Result_bind {E} : MBind (Result E) := fun _ _ f m =>
  match m with
  | Ok a => f a
  | Throw e => Throw e
  end.

(** The argument of [index.query]. *)
Record QueryRequest (Num : Type) : Type := {
  vector : JsVal Num;
  topK : Z;
  includeMetadata : bool
}.

Arguments vector {Num} q.
Arguments topK {Num} q.
Arguments includeMetadata {Num} q.

(** ** The external libraries

    The constructors of the two client libraries and the two network calls.
    Each may throw; the handles they return are opaque. [show_Pinecone] and
    [show_PineconeIndex] are the texts a template literal prints for the
    handles. *)
Class Libraries (Num : Type) : Type := {
  AzureKeyCredential : Type;
  OpenAIClient : Type;
  Pinecone : Type;
  PineconeIndex : Type;
  new_AzureKeyCredential : JsVal Num -> JsVal Num + AzureKeyCredential;
  new_OpenAIClient : JsVal Num -> AzureKeyCredential -> JsVal Num + OpenAIClient;
  new_Pinecone : JsVal Num -> JsVal Num + Pinecone;
  Pinecone_index : Pinecone -> JsVal Num -> JsVal Num + PineconeIndex;
  show_Pinecone : Pinecone -> string;
  show_PineconeIndex : PineconeIndex -> string;
  getEmbeddings : OpenAIClient -> string -> JsVal Num -> JsVal Num + JsVal Num;
  index_query : PineconeIndex -> QueryRequest Num -> JsVal Num + JsVal Num
}.

(** [Array.prototype.join], with [print] for the text of an element. *)
Section Join.

Context {A E : Type} (print : A -> Result E string).

Fixpoint join (l : list A) : Result E string :=
  match l with
  | [] => Ok ""
  | x :: rest =>
      match rest with
      | [] => print x
      | _ => s ← print x; r ← join rest; Ok (s +:+ "," +:+ r)
      end
  end.

End Join.

Section Language.

Context {Num : Type} `{!JsNumber Num}.

#[local] Abbreviation Val := (JsVal Num).
#[local] Abbreviation Res := (Result (Exn Num)).

(** [!!v] is [true]. *)
Definition truthy (v : Val) : bool :=
  match v with
  | JUndefined | JNull => false
  | JBool b => b
  | JNum n => num_truthy n
  | JStr s => negb (String.eqb s "")
  | JArr _ | JObj _ => true
  end.

(** [a || b] *)
Definition js_or (a b : Val) : Val := if truthy a then a else b.

(** [v.name], for a name that no prototype defines (every name the tool
    reads is such a name): the own property of an object, [undefined] on any
    other value, a [TypeError] on [undefined] and [null]. *)
Definition get_prop (v : Val) (name : string) : Res Val :=
  match v with
  | JUndefined | JNull => Throw TypeError
  | JObj props => Ok (default JUndefined (props !! name))
  | _ => Ok JUndefined
  end.

(** [v[i]] *)
Definition get_index (v : Val) (i : nat) : Res Val :=
  match v with
  | JUndefined | JNull => Throw TypeError
  | JArr elems => Ok (default JUndefined (elems !! i))
  | JStr s =>
      Ok (match String.get i s with
          | Some c => JStr (String c "")
          | None => JUndefined
          end)
  | JObj props => Ok (default JUndefined (props !! pretty i))
  | _ => Ok JUndefined
  end.

(** [ToString], as a template literal applies it. Values carry no functions,
    so an own [toString] property of an object is never callable and hides
    [Object.prototype.toString]: the conversion then throws. An array prints
    its elements with commas between them, [undefined] and [null] as
    nothing. *)
Fixpoint to_string (v : Val) : Res string :=
  match v with
  | JUndefined => Ok "undefined"
  | JNull => Ok "null"
  | JBool true => Ok "true"
  | JBool false => Ok "false"
  | JNum n => Ok (num_to_string n)
  | JStr s => Ok s
  | JArr elems =>
      join (fun x => match x with
                     | JUndefined | JNull => Ok ""
                     | _ => to_string x
                     end) elems
  | JObj props =>
      match props !! "toString" with
      | Some _ => Throw TypeError
      | None => Ok "[object Object]"
      end
  end.

(** The values a [for...of] visits: the elements of an array, the characters
    of a string; anything else is not iterable. *)
Fixpoint chars (s : string) : list Val :=
  match s with
  | EmptyString => []
  | String c rest => JStr (String c "") :: chars rest
  end.

Definition iterate (v : Val) : Res (list Val) :=
  match v with
  | JArr elems => Ok elems
  | JStr s => Ok (chars s)
  | _ => Throw TypeError
  end.

(** [process.env.NAME]: the variables of the environment are strings. *)
Definition process_env (env : gmap string string) (name : string) : Val :=
  match env !! name with
  | Some s => JStr s
  | None => JUndefined
  end.

End Language.

(** ** Effects: the trace of logger and service calls *)

Inductive Event (Num : Type) : Type :=
| EvLogInfo (msg : string)
| EvLogError (msg : string) (error : Exn Num)
| EvGetEmbeddings (model : string) (input : JsVal Num)
| EvIndexQuery (request : QueryRequest Num).

Arguments EvLogInfo {Num} msg.
Arguments EvLogError {Num} msg error.
Arguments EvGetEmbeddings {Num} model input.
Arguments EvIndexQuery {Num} request.

(** A computation reads the trace so far and returns a value or an exception
    together with the trace extended by its own calls. *)
Definition M (Num A : Type) : Type :=
  list (Event Num) -> Result (Exn Num) A * list (Event Num).

#[global] Instance M_ret {Num} : MRet (M Num) := fun _ a tr => (Ok a, tr).

#[global] Instance M_bind {Num} : MBind (M Num) := fun _ _ f m tr =>
  match m tr with
  | (Ok a, tr') => f a tr'
  | (Throw e, tr') => (Throw e, tr')
  end.

Section Effects.

Context {Num : Type}.

#[local] Abbreviation Res := (Result (Exn Num)).
#[local] Abbreviation Eff := (M Num).

(** A pure step, which may throw. *)
Definition lift {A} (r : Res A) : Eff A := fun tr => (r, tr).

(** One call recorded in the trace. *)
Definition emit (ev : Event Num) : Eff unit := fun tr => (Ok tt, (tr ++ [ev])%list).

(** A call to a library: what it throws is an [External] exception. *)
Definition external {A} (r : JsVal Num + A) : Res A :=
  match r with
  | inl thrown => Throw (External thrown)
  | inr a => Ok a
  end.

(** [try { body } catch (error) { handler error }] *)
Definition try_catch {A} (body : Eff A) (handler : Exn Num -> Eff A) : Eff A :=
  fun tr =>
    match body tr with
    | (Ok a, tr') => (Ok a, tr')
    | (Throw e, tr') => handler e tr'
    end.

(** Modelled from the spec: the [logger] of [~/config] is not part of the
    sources at hand; it logs the message (at error level with the exception
    it is given) and returns. *)
Definition logger_info (msg : string) : Eff unit := emit (EvLogInfo msg).

Definition logger_error (msg : string) (error : Exn Num) : Eff unit :=
  emit (EvLogError msg error).

End Effects.

(** ** The tool *)

Section TNGDSearch.

Context {Num : Type} `{!JsNumber Num} `{!Libraries Num}.

#[local] Abbreviation Val := (JsVal Num).
#[local] Abbreviation Res := (Result (Exn Num)).
#[local] Abbreviation Eff := (M Num).

(** The instance that the constructor builds. Its [schema] is the same for
    every instance and is given by [schema_parse] below. *)
Record Tool : Type := {
  name : string;
  description : string;
  pineconeApiKey : Val;
  pineconeIndex : Val;
  openAIApiKey : Val;
  openAIHost : Val;
  openAIClient : OpenAIClient;
  client : Pinecone;
  index : PineconeIndex
}.

Definition DEFAULT_PINECONE_INDEX : string := "large-index".

Definition MISSING_PINECONE_KEY : string :=
  "Missing PINECONE_PROJECT_API_KEY environment variable.".

Definition MISSING_OPENAI_KEY : string :=
  "Missing OPENAI_API_KEY environment variable.".

(** [constructor(fields = {})]: [arg] is the argument of the call,
    [JUndefined] when there is none; [env] is [process.env]. The constructor
    of the base class takes no argument here and does nothing that the tool
    observes. *)
Definition constructor (arg : Val) (env : gmap string string) : Eff Tool :=
  let fields := match arg with JUndefined => JObj ∅ | _ => arg end in
  o_key ← lift (get_prop fields "PINECONE_PROJECT_API_KEY");
  let pineconeApiKey := js_or o_key (process_env env "PINECONE_PROJECT_API_KEY") in
  o_index ← lift (get_prop fields "PINECONE_INDEX_NAME");
  let pineconeIndex :=
    js_or (js_or o_index (process_env env "PINECONE_INDEX_NAME"))
          (JStr DEFAULT_PINECONE_INDEX) in
  o_azure ← lift (get_prop fields "AZURE_API_KEY");
  let openAIApiKey := js_or o_azure (process_env env "AZURE_API_KEY") in
  o_host ← lift (get_prop fields "AZURE_HOST");
  let openAIHost := js_or o_host (process_env env "AZURE_HOST") in
  credential ← lift (external (new_AzureKeyCredential openAIApiKey));
  openAIClient ← lift (external (new_OpenAIClient openAIHost credential));
  if negb (truthy pineconeApiKey) then lift (Throw (JsError MISSING_PINECONE_KEY))
  else if negb (truthy openAIApiKey) then lift (Throw (JsError MISSING_OPENAI_KEY))
  else
    client ← lift (external (new_Pinecone pineconeApiKey));
    logger_info ("Pinecone client: " +:+ show_Pinecone client);;
    index_name ← lift (to_string pineconeIndex);
    logger_info ("Pinecone index name: " +:+ index_name);;
    index ← lift (external (Pinecone_index client pineconeIndex));
    logger_info ("Pinecone index: " +:+ show_PineconeIndex index);;
    mret {| name := "pinecone";
            description :=
              "Retrieve relevant information from a Pinecone vector database based on query embeddings.";
            pineconeApiKey := pineconeApiKey;
            pineconeIndex := pineconeIndex;
            openAIApiKey := openAIApiKey;
            openAIHost := openAIHost;
            openAIClient := openAIClient;
            client := client;
            index := index |}.

(** [this.schema.parse(data)] for the schema [z.object({ query: z.string() })]:
    [data] must be an object whose [query] is a string, of any length; the
    parsed object keeps that field only, and [_call] reads it. *)
Definition schema_parse (data : Val) : Res string :=
  match data with
  | JObj props =>
      match props !! "query" with
      | Some (JStr s) => Ok s
      | _ => Throw ZodError
      end
  | _ => Throw ZodError
  end.

Definition EMBEDDING_MODEL : string := "text-embedding-3-large".

(** [data.data[0].embedding] *)
Definition first_embedding (data : Val) : Res Val :=
  records ← get_prop data "data";
  record ← get_index records 0;
  get_prop record "embedding".

Definition queryToEmbeddings (this : Tool) (query : Val) : Eff Val :=
  emit (EvGetEmbeddings EMBEDDING_MODEL query);;
  data ← lift (external (getEmbeddings (openAIClient this) EMBEDDING_MODEL query));
  lift (first_embedding data).

(** The text appended for one match. *)
Definition fragment (result : Val) : Res string :=
  metadata ← get_prop result "metadata";
  page_title ← get_prop metadata "page_title";
  title_text ← to_string page_title;
  content ← get_prop metadata "content";
  content_text ← to_string content;
  Ok ("Page Title: " +:+ title_text +:+ " Content: " +:+ content_text +:+ " ").

(** The body of the [for...of] loop, over the values that remain to be
    visited, from the current [resultString] and [firstResult]. *)
Fixpoint loop (matches : list Val) (resultString : string) (firstResult : Val)
  : Res (string * Val) :=
  match matches with
  | [] => Ok (resultString, firstResult)
  | result :: rest =>
      let firstResult := if negb (truthy firstResult) then result else firstResult in
      text ← fragment result;
      loop rest (resultString +:+ text) firstResult
  end.

Definition NO_RESULTS : string := "No results found for the query.".

Definition SEARCH_ERROR : string := "There was an error with the Pinecone search.".

Definition _call (this : Tool) (data : Val) : Eff string :=
  query ← lift (schema_parse data);
  try_catch
    (embeddings ← queryToEmbeddings this (JStr query);
     let request := {| vector := embeddings; topK := 3; includeMetadata := true |} in
     emit (EvIndexQuery request);;
     results ← lift (external (index_query (index this) request));
     matches ← lift (get_prop results "matches");
     visited ← lift (iterate matches);
     '(resultString, firstResult) ← lift (loop visited "" JNull);
     if negb (truthy firstResult) then mret NO_RESULTS else mret resultString)
    (fun error =>
       logger_error "Pinecone search request failed" error;;
       mret SEARCH_ERROR).

End TNGDSearch.

(** ** What the claims speak about *)

Section Vocabulary.

Context {Num : Type} `{!JsNumber Num}.

#[local] Abbreviation Val := (JsVal Num).
#[local] Abbreviation Res := (Result (Exn Num)).

(** The text of one match with the given title and content. *)
Definition fragment_text (title content : string) : string :=
  "Page Title: " +:+ title +:+ " Content: " +:+ content +:+ " ".

(** The texts of a list, one after the other, in the order of the list. *)
Fixpoint concatenation (texts : list string) : string :=
  match texts with
  | [] => ""
  | text :: rest => text +:+ concatenation rest
  end.

(** A match whose metadata is an object in which [page_title] and [content]
    are each a string or missing ([None]). *)
Definition has_metadata (result : Val) (fields : option string * option string) : Prop :=
  exists metadata : gmap string Val,
    get_prop result "metadata" = Ok (JObj metadata) /\
    metadata !! "page_title" = JStr <$> fields.1 /\
    metadata !! "content" = JStr <$> fields.2.

(** How a field of the metadata is printed. *)
Definition rendered (field : option string) : string := default "undefined" field.

Definition rendered_fragment (fields : option string * option string) : string :=
  fragment_text (rendered fields.1) (rendered fields.2).

(** The requests sent to the index, and the inputs sent to the embedding
    service, in a trace. *)
Definition index_queries (tr : list (Event Num)) : list (QueryRequest Num) :=
  omap (fun ev => match ev with EvIndexQuery request => Some request | _ => None end) tr.

Definition embedding_inputs (tr : list (Event Num)) : list Val :=
  omap (fun ev => match ev with EvGetEmbeddings _ input => Some input | _ => None end) tr.

(** The request that [_call] builds from a vector. *)
Definition request_for (v : Val) : QueryRequest Num :=
  {| vector := v; topK := 3; includeMetadata := true |}.

(** [fields.NAME] for the object [fields], and [fields.NAME || process.env.NAME]. *)
Definition override (fields : gmap string Val) (name : string) : Val :=
  default JUndefined (fields !! name).

Definition configured (fields : gmap string Val) (env : gmap string string)
    (name : string) : Val :=
  js_or (override fields name) (process_env env name).

(** The resolution order in the words of the specification: the override
    when one is supplied, otherwise the variable of the environment when it
    is set, otherwise the default when there is one. *)
Definition resolved_as_specified (supplied : option Val) (variable fallback : option string)
  : Val :=
  match supplied, variable, fallback with
  | Some v, _, _ => v
  | None, Some s, _ => JStr s
  | None, None, Some d => JStr d
  | None, None, None => JUndefined
  end.

(** The resolution order of the constructor: an override counts when it is
    truthy, and a variable overrides the default when it is not empty. *)
Definition resolved (supplied : Val) (variable fallback : option string) : Val :=
  if truthy supplied then supplied
  else match variable, fallback with
       | Some s, Some d => if String.eqb s "" then JStr d else JStr s
       | Some s, None => JStr s
       | None, Some d => JStr d
       | None, None => JUndefined
       end.

(** The text that [_call] returns once the index has answered [results]:
    the loop over [results.matches] and the test that follows it. *)
Definition render (results : Val) : Res string :=
  matches ← get_prop results "matches";
  visited ← iterate matches;
  '(resultString, firstResult) ← loop visited "" JNull;
  if negb (truthy firstResult) then Ok NO_RESULTS else Ok resultString.

(** The calls to the two services in a trace, in the order in which they
    were made. *)
Definition is_service_call (ev : Event Num) : bool :=
  match ev with
  | EvGetEmbeddings _ _ | EvIndexQuery _ => true
  | _ => false
  end.

Definition service_calls (tr : list (Event Num)) : list (Event Num) :=
  List.filter is_service_call tr.

(** The exceptions handed to [logger.error], in a trace. *)
Definition logged_errors (tr : list (Event Num)) : list (Exn Num) :=
  omap (fun ev => match ev with EvLogError _ error => Some error | _ => None end) tr.

(** The own properties of the argument of the constructor: those of an
    object, none for any other value. *)
Definition fields_of (arg : Val) : gmap string Val :=
  match arg with
  | JObj props => props
  | _ => ∅
  end.

(** The names that the constructor looks up. *)
Definition CONFIGURATION_NAMES : list string :=
  ["PINECONE_PROJECT_API_KEY"; "PINECONE_INDEX_NAME"; "AZURE_API_KEY"; "AZURE_HOST"].

End Vocabulary.

(** ** A sample platform, on which the tool can be run *)

Module Sample.

(** Three of the numbers of JavaScript: [0], [0.1] and [0.2]. *)
Inductive Double : Type := Zero | Tenth | Fifth.

#[global] Instance number : JsNumber Double := {|
  num_truthy n := match n with Zero => false | _ => true end;
  num_to_string n := match n with Zero => "0" | Tenth => "0.1" | Fifth => "0.2" end
|}.

Abbreviation Val := (JsVal Double).

(** Client libraries whose constructors accept what they are given, except
    that a credential needs a key, in front of an embedding service
    [embeddings] and an index [search]. *)
Definition libraries (embeddings : Val -> Val + Val)
    (search : QueryRequest Double -> Val + Val) : Libraries Double := {|
  AzureKeyCredential := Val;
  OpenAIClient := Val * Val;
  Pinecone := Val;
  PineconeIndex := Val * Val;
  new_AzureKeyCredential key :=
    if truthy key then inr key else inl (JStr "key must be a non-empty string");
  new_OpenAIClient host credential := inr (host, credential);
  new_Pinecone apiKey := inr apiKey;
  Pinecone_index client index_name := inr (client, index_name);
  show_Pinecone _ := "[object Object]";
  show_PineconeIndex _ := "[object Object]";
  getEmbeddings _ _ input := embeddings input;
  index_query _ request := search request
|}.

Definition object (props : list (string * Val)) : Val := JObj (list_to_map props).

(** The tool built from explicit keys, a host and the default index. *)
Definition tool embeddings search : @Tool Double (libraries embeddings search) :=
  @Build_Tool Double (libraries embeddings search)
    "pinecone"
    "Retrieve relevant information from a Pinecone vector database based on query embeddings."
    (JStr "pc-key")
    (JStr "large-index")
    (JStr "az-key")
    (JStr "https://example.openai.azure.com")
    (JStr "https://example.openai.azure.com", JStr "az-key")
    (JStr "pc-key")
    (JStr "pc-key", JStr "large-index").

Definition fields : Val :=
  object [("PINECONE_PROJECT_API_KEY", JStr "pc-key");
          ("AZURE_API_KEY", JStr "az-key");
          ("AZURE_HOST", JStr "https://example.openai.azure.com")].

(** An embedding service that answers every query with the vector
    [[0.1, 0.2]], and one that is down. *)
Definition embedding_response : Val :=
  object [("data", JArr [object [("embedding", JArr [JNum Tenth; JNum Fifth])]])].

Definition embeds (input : Val) : Val + Val := inr embedding_response.

Definition embedding_down (input : Val) : Val + Val := inl (JStr "ECONNREFUSED").

(** An index that answers with the given matches, and one that is down. *)
Definition finds (matches : list Val) (request : QueryRequest Double) : Val + Val :=
  inr (object [("matches", JArr matches)]).

Definition index_down (request : QueryRequest Double) : Val + Val :=
  inl (JStr "ETIMEDOUT").

Definition document (metadata : list (string * Val)) : Val :=
  object [("id", JStr "doc"); ("metadata", object metadata)].

Definition paris : Val :=
  document [("page_title", JStr "Paris"); ("content", JStr "Paris is the capital.")].

Definition france : Val :=
  document [("page_title", JStr "France"); ("content", JStr "France is a country.")].

(** A match whose metadata has no [content]. *)
Definition untitled : Val := document [("page_title", JStr "Lyon")].

Definition ask (query : Val) : Val := object [("query", query)].

(** Overrides with an empty host, in an environment that sets the host and
    sets the name of the index to the empty string. *)
Definition fields_empty_host : gmap string Val :=
  list_to_map [("PINECONE_PROJECT_API_KEY", JStr "pc-key");
               ("AZURE_API_KEY", JStr "az-key");
               ("AZURE_HOST", JStr "")].

Definition env_empty_index : gmap string string :=
  list_to_map [("AZURE_HOST", "https://env.openai.azure.com");
               ("PINECONE_INDEX_NAME", "")].

(** Overrides with the two keys and nothing else. *)
Definition fields_keys_only : gmap string Val :=
  list_to_map [("PINECONE_PROJECT_API_KEY", JStr "pc-key");
               ("AZURE_API_KEY", JStr "az-key")].

(** A match that has no metadata, and one whose content is a list of tags. *)
Definition bare : Val := object [("id", JStr "doc")].

Definition tagged : Val :=
  document [("page_title", JStr "Lyon"); ("content", JArr [JStr "city"; JStr "river"])].

(** An embedding service that answers with no record. *)
Definition embeds_nothing (input : Val) : Val + Val :=
  inr (object [("data", JArr [])]).

(** An index whose answer has no [matches]. *)
Definition answers_empty_object (request : QueryRequest Double) : Val + Val :=
  inr (object []).

(** Overrides for the four names, and an environment that sets them all to
    other values. *)
Definition fields_complete : gmap string Val :=
  list_to_map [("PINECONE_PROJECT_API_KEY", JStr "pc-key");
               ("PINECONE_INDEX_NAME", JStr "docs");
               ("AZURE_API_KEY", JStr "az-key");
               ("AZURE_HOST", JStr "https://example.openai.azure.com")].

Definition env_complete : gmap string string :=
  list_to_map [("PINECONE_PROJECT_API_KEY", "env-pc-key");
               ("PINECONE_INDEX_NAME", "env-docs");
               ("AZURE_API_KEY", "env-az-key");
               ("AZURE_HOST", "https://env.openai.azure.com")].

(** An environment in which the key of the vector database is set to the
    empty string. *)
Definition env_blank_key : gmap string string :=
  list_to_map [("PINECONE_PROJECT_API_KEY", ""); ("AZURE_API_KEY", "az-key")].

End Sample.

(** ** Properties *)

Section Properties.

Context {Num : Type} `{!JsNumber Num} `{!Libraries Num}.

#[local] Abbreviation Val := (JsVal Num).
#[local] Abbreviation Res := (Result (Exn Num)).
#[local] Abbreviation Eff := (M Num).

(** *** Running computations *)

(** Closes a goal that holds up to the bracketing of the trace. *)
Ltac by_trace := cbn [mbind Result_bind]; rewrite <- ?app_assoc; reflexivity.

Lemma run_ret {A} (a : A) (tr : list (Event Num)) : (mret a : Eff A) tr = (Ok a, tr).
Proof. reflexivity. Qed.

Lemma run_emit {A} (ev : Event Num) (k : unit -> Eff A) tr :
  (emit ev ≫= k) tr = k tt (tr ++ [ev])%list.
Proof. reflexivity. Qed.

Lemma run_lift_ok {A B} (a : A) (k : A -> Eff B) tr :
  (lift (Ok a) ≫= k) tr = k a tr.
Proof. reflexivity. Qed.

Lemma run_lift_throw {A B} (e : Exn Num) (k : A -> Eff B) tr :
  (lift (Throw e) ≫= k) tr = (Throw e, tr).
Proof. reflexivity. Qed.

Lemma run_logger_error {A} msg (e : Exn Num) (k : unit -> Eff A) tr :
  (logger_error msg e ≫= k) tr = k tt (tr ++ [EvLogError msg e])%list.
Proof. reflexivity. Qed.

Lemma run_logger_info {A} msg (k : unit -> Eff A) tr :
  (logger_info msg ≫= k) tr = k tt (tr ++ [EvLogInfo msg])%list.
Proof. reflexivity. Qed.

(** *** Strings *)

Lemma string_app_assoc (a b c : string) : (a +:+ b) +:+ c = a +:+ (b +:+ c).
Proof.
  induction a as [|x a IH]; [reflexivity |].
  change (String x ((a +:+ b) +:+ c) = String x (a +:+ b +:+ c)). by rewrite IH.
Qed.

Lemma string_app_nil_r (a : string) : a +:+ "" = a.
Proof.
  induction a as [|x a IH]; [reflexivity |].
  change (String x (a +:+ "") = String x a). by rewrite IH.
Qed.

(** *** Conversions *)

Lemma join_throws {A} (print : A -> Res string) (P : Exn Num -> Prop) (l : list A) :
  Forall (fun x => forall e, print x = Throw e -> P e) l ->
  forall e, join print l = Throw e -> P e.
Proof.
  induction 1 as [|x rest Hx _ IH]; intros e; [discriminate |].
  cbn [join]. destruct rest as [|y rest]; [apply Hx |].
  destruct (print x) as [s|e'] eqn:Hprint; cbn [mbind Result_bind].
  - destruct (join print (y :: rest)) as [r|e'] eqn:Hrest; [discriminate |].
    intros [= <-]. by apply IH.
  - intros [= <-]. by apply Hx.
Qed.

(** [ToString] throws nothing but a [TypeError]. *)
Lemma to_string_throws : forall (v : Val) (e : Exn Num), to_string v = Throw e -> e = TypeError.
Proof.
  fix IH 1. intros [| | [|] | n | s | elems | props] e; cbn [to_string]; try discriminate.
  - apply (join_throws _ (fun e => e = TypeError)).
    induction elems as [|x rest IHrest]; constructor; [| exact IHrest].
    intros e'. pose proof (IH x e') as IHx. destruct x; try discriminate; exact IHx.
  - destruct (props !! "toString"); [congruence | discriminate].
Qed.

(** *** The schema *)

Lemma schema_parse_ok (data : Val) (s : string) :
  schema_parse data = Ok s <-> get_prop data "query" = Ok (JStr s).
Proof.
  unfold schema_parse, get_prop.
  destruct data as [| | b | n | t | l | props]; try (split; discriminate).
  destruct (props !! "query") as [[| | b | n | t | l | q]|]; simpl;
    split; intros Heq; try discriminate; congruence.
Qed.

Lemma schema_parse_throws (data : Val) :
  (forall s, get_prop data "query" <> Ok (JStr s)) -> schema_parse data = Throw ZodError.
Proof.
  intros Hno. destruct (schema_parse data) as [s|e] eqn:Hp.
  - apply schema_parse_ok in Hp. by destruct (Hno s).
  - revert Hp. unfold schema_parse.
    destruct data as [| | b | n | t | l | props]; try congruence.
    destruct (props !! "query") as [[| | b | n | t | l | q]|]; congruence.
Qed.

(** *** The paths through [_call] *)

Lemma queryToEmbeddings_run (this : Tool) (query : Val) tr :
  queryToEmbeddings this query tr =
    (data ← external (getEmbeddings (openAIClient this) EMBEDDING_MODEL query);
     first_embedding data,
     tr ++ [EvGetEmbeddings EMBEDDING_MODEL query])%list.
Proof.
  unfold queryToEmbeddings. rewrite run_emit.
  destruct (getEmbeddings _ _ _) as [x|data]; reflexivity.
Qed.

(** *** The loop *)

Lemma fragment_rendered (result : Val) fields :
  has_metadata result fields -> fragment result = Ok (rendered_fragment fields).
Proof.
  intros (metadata & Hm & Ht & Hc). unfold fragment. rewrite Hm.
  cbn [mbind Result_bind get_prop]. rewrite Ht, Hc.
  destruct fields as [[t|] [c|]]; reflexivity.
Qed.

Lemma has_metadata_truthy (result : Val) fields :
  has_metadata result fields -> truthy result = true.
Proof.
  intros (metadata & Hm & _). by destruct result.
Qed.

Lemma loop_rendered (matches : list Val) fields (text : string) (first : Val) :
  Forall2 has_metadata matches fields ->
  exists first' : Val,
    loop matches text first = Ok (text +:+ concatenation (rendered_fragment <$> fields), first') /\
    (truthy first = true \/ matches <> [] -> truthy first' = true) /\
    (matches = [] -> first' = first).
Proof.
  intros Hall. revert text first.
  induction Hall as [|result f rest fs Hf _ IH]; intros text first.
  - exists first. cbn [loop fmap list_fmap concatenation].
    rewrite string_app_nil_r. intuition congruence.
  - cbn [loop]. rewrite (fragment_rendered _ _ Hf). cbn [mbind Result_bind].
    destruct (IH (text +:+ rendered_fragment f)
                 (if negb (truthy first) then result else first))
      as (first' & Hloop & Htruthy & _).
    exists first'. rewrite Hloop. cbn [fmap list_fmap concatenation].
    rewrite string_app_assoc. split; [reflexivity |]. split; [| discriminate].
    intros _. apply Htruthy. left.
    destruct (truthy first) eqn:Hfirst; cbn [negb]; [exact Hfirst |].
    by eapply has_metadata_truthy.
Qed.

Lemma render_matches (results : Val) (matches : list Val) fields :
  get_prop results "matches" = Ok (JArr matches) ->
  Forall2 has_metadata matches fields ->
  render results =
    Ok (if decide (matches = []) then NO_RESULTS
        else concatenation (rendered_fragment <$> fields)).
Proof.
  intros Hm Hall. unfold render. rewrite Hm. cbn [mbind Result_bind iterate].
  destruct (loop_rendered matches fields "" JNull Hall) as (first' & -> & Htruthy & Hnil).
  cbn [mbind Result_bind]. case_decide as Hempty.
  - rewrite (Hnil Hempty). reflexivity.
  - rewrite Htruthy by (by right). reflexivity.
Qed.

Lemma _call_embedding_fails (this : Tool) data query e tr :
  schema_parse data = Ok query ->
  (data ← external (getEmbeddings (openAIClient this) EMBEDDING_MODEL (JStr query));
   first_embedding data) = Throw e ->
  _call this data tr =
    (Ok SEARCH_ERROR,
     tr ++ [EvGetEmbeddings EMBEDDING_MODEL (JStr query);
            EvLogError "Pinecone search request failed" e])%list.
Proof.
  intros Hq He. unfold _call. rewrite Hq, run_lift_ok. unfold try_catch.
  unfold mbind at 1, M_bind at 1. rewrite queryToEmbeddings_run, He.
  rewrite run_logger_error, run_ret. by_trace.
Qed.

Lemma _call_embedded (this : Tool) data query v tr :
  schema_parse data = Ok query ->
  (data ← external (getEmbeddings (openAIClient this) EMBEDDING_MODEL (JStr query));
   first_embedding data) = Ok v ->
  _call this data tr =
    match results ← external (index_query (index this) (request_for v)); render results with
    | Ok text =>
        (Ok text,
         tr ++ [EvGetEmbeddings EMBEDDING_MODEL (JStr query); EvIndexQuery (request_for v)])
    | Throw e =>
        (Ok SEARCH_ERROR,
         tr ++ [EvGetEmbeddings EMBEDDING_MODEL (JStr query); EvIndexQuery (request_for v);
                EvLogError "Pinecone search request failed" e])
    end%list.
Proof.
  intros Hq Hv. unfold _call. rewrite Hq, run_lift_ok. unfold try_catch.
  unfold mbind at 1, M_bind at 1. rewrite queryToEmbeddings_run, Hv.
  rewrite run_emit. fold (request_for v). rewrite <- app_assoc. simpl app.
  destruct (index_query _ _) as [x|results]; simpl external.
  { rewrite run_lift_throw. cbn [mbind Result_bind].
    rewrite run_logger_error, run_ret. by_trace. }
  rewrite run_lift_ok. unfold render. cbn [mbind Result_bind].
  destruct (get_prop results "matches") as [matches|e].
  2:{ rewrite run_lift_throw, run_logger_error, run_ret. by_trace. }
  rewrite run_lift_ok. cbn [mbind Result_bind].
  destruct (iterate matches) as [visited|e].
  2:{ rewrite run_lift_throw, run_logger_error, run_ret. by_trace. }
  rewrite run_lift_ok. cbn [mbind Result_bind].
  destruct (loop visited "" JNull) as [[resultString firstResult]|e].
  2:{ rewrite run_lift_throw, run_logger_error, run_ret. by_trace. }
  rewrite run_lift_ok. cbn [mbind Result_bind].
  destruct (negb (truthy firstResult)); rewrite run_ret; by_trace.
Qed.

Lemma embedded (this : Tool) (query : Val) response v :
  getEmbeddings (openAIClient this) EMBEDDING_MODEL query = inr response ->
  first_embedding response = Ok v ->
  (data ← external (getEmbeddings (openAIClient this) EMBEDDING_MODEL query);
   first_embedding data) = Ok v.
Proof. intros -> Hv. exact Hv. Qed.

Lemma _call_answered (this : Tool) data query response v results tr :
  get_prop data "query" = Ok (JStr query) ->
  getEmbeddings (openAIClient this) EMBEDDING_MODEL (JStr query) = inr response ->
  first_embedding response = Ok v ->
  index_query (index this) (request_for v) = inr results ->
  _call this data tr =
    match render results with
    | Ok text =>
        (Ok text,
         tr ++ [EvGetEmbeddings EMBEDDING_MODEL (JStr query); EvIndexQuery (request_for v)])
    | Throw e =>
        (Ok SEARCH_ERROR,
         tr ++ [EvGetEmbeddings EMBEDDING_MODEL (JStr query); EvIndexQuery (request_for v);
                EvLogError "Pinecone search request failed" e])
    end%list.
Proof.
  intros Hq%schema_parse_ok He Hv Hr.
  rewrite (_call_embedded this data query v tr Hq (embedded _ _ _ _ He Hv)), Hr.
  reflexivity.
Qed.

Lemma _call_rejects (this : Tool) (data : Val) (tr : list (Event Num)) :
  (forall s, get_prop data "query" <> Ok (JStr s)) ->
  _call this data tr = (Throw ZodError, tr).
Proof.
  intros Hno. unfold _call. rewrite (schema_parse_throws data Hno).
  apply run_lift_throw.
Qed.

(** Once its input is validated, [_call] returns a text: no exception leaves
    the [try] block. *)
Lemma _call_returns (this : Tool) data query tr :
  schema_parse data = Ok query ->
  exists text tr', _call this data tr = (Ok text, tr').
Proof.
  intros Hq.
  destruct (data ← external (getEmbeddings (openAIClient this) EMBEDDING_MODEL (JStr query));
            first_embedding data) as [v|e] eqn:He.
  - rewrite (_call_embedded this data query v tr Hq He).
    destruct (external (index_query _ _) ≫= _); do 2 eexists; reflexivity.
  - rewrite (_call_embedding_fails this data query e tr Hq He). do 2 eexists; reflexivity.
Qed.

(** *** The claims about [_call] *)

(** C1. When the index answers with N >= 1 matches whose metadata carry the
    strings [title_i] and [content_i], [_call] returns exactly the fragments
    "Page Title: title_i Content: content_i " one after the other, in the
    order in which the matches were received. *)
Theorem search_concatenates_matches (this : Tool) (data : Val) (query : string)
    (response v results : Val) (matches : list Val) (docs : list (string * string))
    (tr : list (Event Num)) :
  get_prop data "query" = Ok (JStr query) ->
  getEmbeddings (openAIClient this) EMBEDDING_MODEL (JStr query) = inr response ->
  first_embedding response = Ok v ->
  index_query (index this) (request_for v) = inr results ->
  get_prop results "matches" = Ok (JArr matches) ->
  Forall2 (fun result doc => has_metadata result (Some doc.1, Some doc.2)) matches docs ->
  1 <= length matches ->
  (_call this data tr).1 =
    Ok (concatenation ((fun doc => fragment_text doc.1 doc.2) <$> docs)).
Proof.
  intros Hq He Hv Hr Hm Hall Hlen.
  rewrite (_call_answered this data query response v results tr Hq He Hv Hr).
  assert (Hfields : Forall2 has_metadata matches ((fun doc => (Some doc.1, Some doc.2)) <$> docs)).
  { apply Forall2_fmap_r. exact Hall. }
  rewrite (render_matches results matches _ Hm Hfields).
  case_decide as Hempty; [subst matches; cbn in Hlen; lia |].
  cbn [fst]. rewrite <- list_fmap_compose. reflexivity.
Qed.

(** C2. When the call to the embedding service throws, or the call to the
    index throws, [_call] returns the text "There was an error with the
    Pinecone search." and throws nothing. *)
Theorem search_converts_service_errors (this : Tool) (data : Val) (query : string)
    (tr : list (Event Num)) :
  get_prop data "query" = Ok (JStr query) ->
  (exists thrown, getEmbeddings (openAIClient this) EMBEDDING_MODEL (JStr query) = inl thrown) \/
  (exists response v thrown,
     getEmbeddings (openAIClient this) EMBEDDING_MODEL (JStr query) = inr response /\
     first_embedding response = Ok v /\
     index_query (index this) (request_for v) = inl thrown) ->
  exists tr', _call this data tr = (Ok "There was an error with the Pinecone search.", tr').
Proof.
  intros Hq%schema_parse_ok [(thrown & He) | (response & v & thrown & He & Hv & Hr)].
  - rewrite (_call_embedding_fails this data query (External thrown) tr Hq);
      [eauto | by rewrite He].
  - rewrite (_call_embedded this data query v tr Hq (embedded _ _ _ _ He Hv)), Hr.
    cbn [external mbind Result_bind]. eauto.
Qed.

(** C3. When the index answers with no match, [_call] returns the text
    "No results found for the query.". *)
Theorem search_reports_no_results (this : Tool) (data : Val) (query : string)
    (response v results : Val) (tr : list (Event Num)) :
  get_prop data "query" = Ok (JStr query) ->
  getEmbeddings (openAIClient this) EMBEDDING_MODEL (JStr query) = inr response ->
  first_embedding response = Ok v ->
  index_query (index this) (request_for v) = inr results ->
  get_prop results "matches" = Ok (JArr []) ->
  (_call this data tr).1 = Ok "No results found for the query.".
Proof.
  intros Hq He Hv Hr Hm.
  rewrite (_call_answered this data query response v results tr Hq He Hv Hr).
  rewrite (render_matches results [] [] Hm (List.Forall2_nil _)). reflexivity.
Qed.

(** C4. When the input has no [query] or a [query] that is not a string,
    [_call] throws the validation error of the schema, and the trace is left
    as it was: neither service has been called. *)
Theorem invalid_input_raises_before_any_call (this : Tool) (data : Val)
    (tr : list (Event Num)) :
  (forall s, get_prop data "query" <> Ok (JStr s)) ->
  _call this data tr = (Throw ZodError, tr).
Proof. apply _call_rejects. Qed.

Lemma embedding_inputs_app (tr1 tr2 : list (Event Num)) :
  embedding_inputs (tr1 ++ tr2) = (embedding_inputs tr1 ++ embedding_inputs tr2)%list.
Proof. apply omap_app. Qed.

Lemma index_queries_app (tr1 tr2 : list (Event Num)) :
  index_queries (tr1 ++ tr2) = (index_queries tr1 ++ index_queries tr2)%list.
Proof. apply omap_app. Qed.

(** C5, as the code has it. The schema asks for a string and nothing more:
    [_call] sends the [query] to the embedding service when it is a string,
    the empty string included, and sends nothing when it is not. *)
Theorem schema_accepts_every_string (this : Tool) (data : Val) (tr : list (Event Num)) :
  embedding_inputs (_call this data tr).2 =
    (embedding_inputs tr ++
     match get_prop data "query" with
     | Ok (JStr s) => [JStr s]
     | _ => []
     end)%list.
Proof.
  destruct (schema_parse data) as [query|e] eqn:Hq.
  - rewrite (proj1 (schema_parse_ok data query) Hq).
    destruct (data ← external (getEmbeddings (openAIClient this) EMBEDDING_MODEL (JStr query));
              first_embedding data) as [v|e] eqn:He.
    + rewrite (_call_embedded this data query v tr Hq He).
      destruct (external (index_query _ _) ≫= _); cbn [snd]; rewrite embedding_inputs_app. all: reflexivity.
    + rewrite (_call_embedding_fails this data query e tr Hq He).
      cbn [snd]. rewrite embedding_inputs_app. reflexivity.
  - assert (Hno : forall s, get_prop data "query" <> Ok (JStr s)).
    { intros s Hs%schema_parse_ok. congruence. }
    rewrite (_call_rejects this data tr Hno). cbn [snd].
    destruct (get_prop data "query") as [[| | b | n | s | l | props]|]; 
      try (by rewrite app_nil_r).
    by destruct (Hno s).
Qed.

Lemma concatenation_starts (fields : list (option string * option string)) :
  fields <> [] ->
  String.get 0 (concatenation (rendered_fragment <$> fields)) = String.get 0 "Page Title: ".
Proof. destruct fields as [|f rest]; [congruence | reflexivity]. Qed.

(** C8. [queryToEmbeddings] returns the vector of the first record of the
    response of the embedding service, and [_call] sends one request to the
    index: that vector, [topK] 3 and [includeMetadata] true. *)
Theorem embeds_then_queries_once (this : Tool) (data : Val) (query : string)
    (response record v : Val) (others : list Val) (tr : list (Event Num)) :
  get_prop data "query" = Ok (JStr query) ->
  getEmbeddings (openAIClient this) EMBEDDING_MODEL (JStr query) = inr response ->
  get_prop response "data" = Ok (JArr (record :: others)) ->
  get_prop record "embedding" = Ok v ->
  (queryToEmbeddings this (JStr query) tr).1 = Ok v /\
  index_queries (_call this data tr).2 =
    (index_queries tr ++ [{| vector := v; topK := 3; includeMetadata := true |}])%list.
Proof.
  intros Hq%schema_parse_ok He Hd Hv.
  assert (Hfirst : first_embedding response = Ok v).
  { unfold first_embedding. rewrite Hd. cbn [mbind Result_bind get_index]. exact Hv. }
  split.
  - rewrite queryToEmbeddings_run, He. exact Hfirst.
  - rewrite (_call_embedded this data query v tr Hq (embedded _ _ _ _ He Hfirst)).
    destruct (external (index_query _ _) ≫= _); cbn [snd];
      rewrite index_queries_app; reflexivity.
Qed.

(** C9. When every match has a metadata object in which [page_title] and
    [content] are strings or missing, and there is at least one match,
    [_call] returns the fragments one after the other, a missing field being
    printed as "undefined", and that text is not the error text. *)
Theorem missing_fields_print_undefined (this : Tool) (data : Val) (query : string)
    (response v results : Val) (matches : list Val)
    (fields : list (option string * option string)) (tr : list (Event Num)) :
  get_prop data "query" = Ok (JStr query) ->
  getEmbeddings (openAIClient this) EMBEDDING_MODEL (JStr query) = inr response ->
  first_embedding response = Ok v ->
  index_query (index this) (request_for v) = inr results ->
  get_prop results "matches" = Ok (JArr matches) ->
  Forall2 has_metadata matches fields ->
  1 <= length matches ->
  (_call this data tr).1 =
    Ok (concatenation
          ((fun f => "Page Title: " +:+ default "undefined" f.1 +:+
                     " Content: " +:+ default "undefined" f.2 +:+ " ") <$> fields)) /\
  (_call this data tr).1 <> Ok "There was an error with the Pinecone search.".
Proof.
  intros Hq He Hv Hr Hm Hall Hlen.
  rewrite (_call_answered this data query response v results tr Hq He Hv Hr).
  rewrite (render_matches results matches _ Hm Hall).
  case_decide as Hempty; [subst matches; cbn in Hlen; lia |].
  split; [reflexivity |]. cbn [fst]. intros Heq.
  assert (Hne : fields <> []).
  { intros ->. apply Forall2_nil_inv_r in Hall. contradiction. }
  apply concatenation_starts in Hne. injection Heq as Heq. rewrite Heq in Hne.
  discriminate Hne.
Qed.

(** *** The constructor *)

Lemma constructor_default_fields (env : gmap string string) :
  constructor JUndefined env = constructor (JObj ∅) env.
Proof. reflexivity. Qed.

(** Every way through the constructor, for an object of overrides. *)
Lemma constructor_cases (fields : gmap string Val) (env : gmap string string)
    (tr : list (Event Num)) :
  let key := configured fields env "PINECONE_PROJECT_API_KEY" in
  let index_name :=
    js_or (configured fields env "PINECONE_INDEX_NAME") (JStr DEFAULT_PINECONE_INDEX) in
  let azure := configured fields env "AZURE_API_KEY" in
  let host := configured fields env "AZURE_HOST" in
  constructor (JObj fields) env tr =
    match new_AzureKeyCredential azure with
    | inl thrown => (Throw (External thrown), tr)
    | inr credential =>
    match new_OpenAIClient host credential with
    | inl thrown => (Throw (External thrown), tr)
    | inr openai =>
    if negb (truthy key) then (Throw (JsError MISSING_PINECONE_KEY), tr)
    else if negb (truthy azure) then (Throw (JsError MISSING_OPENAI_KEY), tr)
    else
    match new_Pinecone key with
    | inl thrown => (Throw (External thrown), tr)
    | inr pinecone =>
    match to_string index_name with
    | Throw e =>
        (Throw e, tr ++ [EvLogInfo ("Pinecone client: " +:+ show_Pinecone pinecone)])
    | Ok text =>
    match Pinecone_index pinecone index_name with
    | inl thrown =>
        (Throw (External thrown),
         tr ++ [EvLogInfo ("Pinecone client: " +:+ show_Pinecone pinecone);
                EvLogInfo ("Pinecone index name: " +:+ text)])
    | inr handle =>
        (Ok {| name := "pinecone";
               description :=
                 "Retrieve relevant information from a Pinecone vector database based on query embeddings.";
               pineconeApiKey := key;
               pineconeIndex := index_name;
               openAIApiKey := azure;
               openAIHost := host;
               openAIClient := openai;
               client := pinecone;
               index := handle |},
         tr ++ [EvLogInfo ("Pinecone client: " +:+ show_Pinecone pinecone);
                EvLogInfo ("Pinecone index name: " +:+ text);
                EvLogInfo ("Pinecone index: " +:+ show_PineconeIndex handle)])
    end end end end end%list.
Proof.
  intros key index_name azure host. unfold constructor.
  cbn [get_prop]. rewrite !run_lift_ok.
  fold (override fields "PINECONE_PROJECT_API_KEY") (override fields "PINECONE_INDEX_NAME")
       (override fields "AZURE_API_KEY") (override fields "AZURE_HOST").
  fold (configured fields env "PINECONE_PROJECT_API_KEY")
       (configured fields env "PINECONE_INDEX_NAME")
       (configured fields env "AZURE_API_KEY") (configured fields env "AZURE_HOST").
  fold key index_name azure host.
  destruct (new_AzureKeyCredential azure) as [x|credential]; [reflexivity |].
  cbn [external]. rewrite run_lift_ok.
  destruct (new_OpenAIClient host credential) as [x|openai]; [reflexivity |].
  cbn [external]. rewrite run_lift_ok.
  destruct (negb (truthy key)); [reflexivity |].
  destruct (negb (truthy azure)); [reflexivity |].
  destruct (new_Pinecone key) as [x|pinecone]; [reflexivity |].
  cbn [external]. rewrite run_lift_ok, run_logger_info.
  destruct (to_string index_name) as [text|e]; [| reflexivity].
  rewrite run_lift_ok, run_logger_info.
  destruct (Pinecone_index pinecone index_name) as [x|handle]; cbn [external].
  { rewrite run_lift_throw. by_trace. }
  rewrite run_lift_ok, run_logger_info, run_ret. by_trace.
Qed.

Lemma configured_absent (fields : gmap string Val) (env : gmap string string) (key : string) :
  fields !! key = None -> env !! key = None -> configured fields env key = JUndefined.
Proof.
  intros Hf He. unfold configured, override, process_env. rewrite Hf, He. reflexivity.
Qed.

Lemma configured_resolved (fields : gmap string Val) (env : gmap string string) (key : string) :
  configured fields env key = resolved (override fields key) (env !! key) None.
Proof.
  unfold configured, js_or, resolved, process_env.
  destruct (truthy (override fields key)); [reflexivity |].
  destruct (env !! key); reflexivity.
Qed.

Lemma configured_or_default_resolved (fields : gmap string Val) (env : gmap string string)
    (key fallback : string) :
  js_or (configured fields env key) (JStr fallback) =
    resolved (override fields key) (env !! key) (Some fallback).
Proof.
  unfold configured, js_or, resolved, process_env.
  destruct (truthy (override fields key)) eqn:Ho; [by rewrite Ho |].
  destruct (env !! key) as [s|]; cbn [truthy]; [| reflexivity].
  destruct (String.eqb s ""); reflexivity.
Qed.

(** What a tool that the constructor returned holds. *)
Lemma constructor_built (fields : gmap string Val) (env : gmap string string)
    (tr tr' : list (Event Num)) (tool : Tool) :
  constructor (JObj fields) env tr = (Ok tool, tr') ->
  pineconeApiKey tool = configured fields env "PINECONE_PROJECT_API_KEY" /\
  pineconeIndex tool =
    js_or (configured fields env "PINECONE_INDEX_NAME") (JStr DEFAULT_PINECONE_INDEX) /\
  openAIApiKey tool = configured fields env "AZURE_API_KEY" /\
  openAIHost tool = configured fields env "AZURE_HOST" /\
  truthy (pineconeApiKey tool) = true /\
  truthy (openAIApiKey tool) = true.
Proof.
  rewrite constructor_cases.
  destruct (new_AzureKeyCredential _) as [x|credential]; [discriminate |].
  destruct (new_OpenAIClient _ _) as [x|openai]; [discriminate |].
  destruct (truthy (configured fields env "PINECONE_PROJECT_API_KEY")) eqn:Hkey;
    cbn [negb]; [| discriminate].
  destruct (truthy (configured fields env "AZURE_API_KEY")) eqn:Hazure;
    cbn [negb]; [| discriminate].
  destruct (new_Pinecone _) as [x|pinecone]; [discriminate |].
  destruct (to_string _) as [text|e]; [| discriminate].
  destruct (Pinecone_index _ _) as [x|handle]; [discriminate |].
  intros [= <- _]. cbn. repeat split; reflexivity || assumption.
Qed.

(** When the key of the vector database, or the key of the embedding
    service, is absent from the overrides and from the environment, the
    constructor throws and builds no tool: it throws one of its two
    "Missing ..." errors, unless a client library has thrown before. *)
Theorem construction_requires_both_keys (fields : gmap string Val)
    (env : gmap string string) (tr : list (Event Num)) :
  (fields !! "PINECONE_PROJECT_API_KEY" = None /\ env !! "PINECONE_PROJECT_API_KEY" = None) \/
  (fields !! "AZURE_API_KEY" = None /\ env !! "AZURE_API_KEY" = None) ->
  exists e : Exn Num,
    constructor (JObj fields) env tr = (Throw e, tr) /\
    (e = JsError "Missing PINECONE_PROJECT_API_KEY environment variable." \/
     e = JsError "Missing OPENAI_API_KEY environment variable." \/
     exists thrown, e = External thrown).
Proof.
  intros Habsent. rewrite constructor_cases.
  destruct (new_AzureKeyCredential _) as [x|credential]; [by eauto 6 |].
  destruct (new_OpenAIClient _ _) as [x|openai]; [by eauto 6 |].
  destruct (truthy (configured fields env "PINECONE_PROJECT_API_KEY")) eqn:Hkey;
    cbn [negb]; [| by eauto].
  destruct Habsent as [[Hf He] | [Hf He]].
  - rewrite (configured_absent _ _ _ Hf He) in Hkey. discriminate.
  - rewrite (configured_absent _ _ _ Hf He). cbn [truthy negb]. eauto 6.
Qed.

(** With the key of the vector database absent, the key of the embedding
    service truthy and libraries that accept what they are given, the
    constructor throws its own error about the key of the vector database. *)
Lemma missing_pinecone_key_is_reported (fields : gmap string Val)
    (env : gmap string string) (tr : list (Event Num)) credential openai :
  fields !! "PINECONE_PROJECT_API_KEY" = None ->
  env !! "PINECONE_PROJECT_API_KEY" = None ->
  new_AzureKeyCredential (configured fields env "AZURE_API_KEY") = inr credential ->
  new_OpenAIClient (configured fields env "AZURE_HOST") credential = inr openai ->
  constructor (JObj fields) env tr =
    (Throw (JsError "Missing PINECONE_PROJECT_API_KEY environment variable."), tr).
Proof.
  intros Hf He Hcredential Hopenai. rewrite constructor_cases. cbn zeta.
  rewrite Hcredential, Hopenai, (configured_absent _ _ _ Hf He). reflexivity.
Qed.

(** The constructor reaches its own error about the key of the embedding
    service only when the credential of the client library has accepted a
    falsy key. *)
Lemma own_embedding_key_error_needs_lenient_library (fields : gmap string Val)
    (env : gmap string string) (tr tr' : list (Event Num)) :
  constructor (JObj fields) env tr =
    (Throw (JsError "Missing OPENAI_API_KEY environment variable."), tr') ->
  truthy (configured fields env "AZURE_API_KEY") = false /\
  exists credential,
    new_AzureKeyCredential (configured fields env "AZURE_API_KEY") = inr credential.
Proof.
  rewrite constructor_cases. cbn zeta.
  destruct (new_AzureKeyCredential _) as [x|credential]; [discriminate |].
  destruct (new_OpenAIClient _ _) as [x|openai]; [discriminate |].
  destruct (truthy (configured fields env "PINECONE_PROJECT_API_KEY")); cbn [negb];
    [| discriminate].
  destruct (truthy (configured fields env "AZURE_API_KEY")); cbn [negb]; [| by eauto].
  destruct (new_Pinecone _) as [x|pinecone]; [discriminate |].
  destruct (to_string _) as [text|e] eqn:Hname.
  - destruct (Pinecone_index _ _); discriminate.
  - intros [= -> _]. by apply to_string_throws in Hname.
Qed.


(** C7, as the code has it. In a tool that the constructor has built, each
    of the four fields holds the override when it is truthy; otherwise the
    variable of the environment: as it is for the two keys and the host
    ([undefined] when it is not set), and when it is not empty for the name
    of the index, which is "large-index" otherwise. *)
Theorem configuration_resolution (fields : gmap string Val) (env : gmap string string)
    (tr tr' : list (Event Num)) (tool : Tool) :
  constructor (JObj fields) env tr = (Ok tool, tr') ->
  pineconeApiKey tool =
    resolved (override fields "PINECONE_PROJECT_API_KEY")
             (env !! "PINECONE_PROJECT_API_KEY") None /\
  pineconeIndex tool =
    resolved (override fields "PINECONE_INDEX_NAME")
             (env !! "PINECONE_INDEX_NAME") (Some "large-index") /\
  openAIApiKey tool =
    resolved (override fields "AZURE_API_KEY") (env !! "AZURE_API_KEY") None /\
  openAIHost tool =
    resolved (override fields "AZURE_HOST") (env !! "AZURE_HOST") None.
Proof.
  intros (Hkey & Hindex & Hazure & Hhost & _)%constructor_built.
  rewrite Hkey, Hindex, Hazure, Hhost.
  rewrite configured_or_default_resolved, !configured_resolved. auto.
Qed.

(** C10. With no host among the overrides and none in the environment, the
    only errors of its own that the constructor throws are the two about the
    keys, each when its key is falsy; and when both keys are truthy and the
    client libraries accept what they are given, the tool is built, with
    [undefined] as its host. *)
Theorem host_is_not_checked (fields : gmap string Val) (env : gmap string string)
    (tr : list (Event Num)) :
  fields !! "AZURE_HOST" = None ->
  env !! "AZURE_HOST" = None ->
  let key := configured fields env "PINECONE_PROJECT_API_KEY" in
  let index_name :=
    js_or (configured fields env "PINECONE_INDEX_NAME") (JStr DEFAULT_PINECONE_INDEX) in
  let azure := configured fields env "AZURE_API_KEY" in
  (forall msg tr',
     constructor (JObj fields) env tr = (Throw (JsError msg), tr') ->
     (msg = "Missing PINECONE_PROJECT_API_KEY environment variable." /\ truthy key = false) \/
     (msg = "Missing OPENAI_API_KEY environment variable." /\ truthy azure = false)) /\
  (forall credential openai pinecone text handle,
     truthy key = true ->
     truthy azure = true ->
     new_AzureKeyCredential azure = inr credential ->
     new_OpenAIClient JUndefined credential = inr openai ->
     new_Pinecone key = inr pinecone ->
     to_string index_name = Ok text ->
     Pinecone_index pinecone index_name = inr handle ->
     exists tool tr',
       constructor (JObj fields) env tr = (Ok tool, tr') /\ openAIHost tool = JUndefined).
Proof.
  intros Hf He key index_name azure.
  pose proof (constructor_cases fields env tr) as Hcases. cbn zeta in Hcases.
  rewrite (configured_absent _ _ "AZURE_HOST" Hf He) in Hcases.
  fold key index_name azure in Hcases. rewrite Hcases. clear Hcases. split.
  - intros msg tr'.
    destruct (new_AzureKeyCredential azure) as [x|credential]; [discriminate |].
    destruct (new_OpenAIClient _ credential) as [x|openai]; [discriminate |].
    destruct (truthy key); cbn [negb]; [| intros [= <- _]; by left].
    destruct (truthy azure); cbn [negb]; [| intros [= <- _]; by right].
    destruct (new_Pinecone key) as [x|pinecone]; [discriminate |].
    destruct (to_string index_name) as [text|e] eqn:Hname.
    + destruct (Pinecone_index pinecone index_name); discriminate.
    + intros [= -> _]. by apply to_string_throws in Hname.
  - intros credential openai pinecone text handle -> -> -> -> -> -> ->.
    cbn [negb]. eauto.
Qed.

(** *** More about the loop *)

Lemma get_prop_throws (v : Val) (key : string) (e : Exn Num) :
  get_prop v key = Throw e -> e = TypeError.
Proof. destruct v; cbn [get_prop]; congruence. Qed.

(** The loop body throws nothing but a [TypeError]. *)
Lemma fragment_throws (result : Val) (e : Exn Num) :
  fragment result = Throw e -> e = TypeError.
Proof.
  unfold fragment.
  destruct (get_prop result "metadata") as [metadata|e0] eqn:Hm; cbn [mbind Result_bind];
    [| intros [= <-]; by eapply get_prop_throws].
  destruct (get_prop metadata "page_title") as [title|e0] eqn:Ht; cbn [mbind Result_bind];
    [| intros [= <-]; by eapply get_prop_throws].
  destruct (to_string title) as [title_text|e0] eqn:Htt; cbn [mbind Result_bind];
    [| intros [= <-]; by eapply to_string_throws].
  destruct (get_prop metadata "content") as [content|e0] eqn:Hc; cbn [mbind Result_bind];
    [| intros [= <-]; by eapply get_prop_throws].
  destruct (to_string content) as [content_text|e0] eqn:Hct; cbn [mbind Result_bind];
    [discriminate | intros [= <-]; by eapply to_string_throws].
Qed.

(** When the loop body succeeds, the match is an object and the text starts
    with the first label. *)
Lemma fragment_ok (result : Val) (text : string) :
  fragment result = Ok text ->
  truthy result = true /\ exists rest, text = "Page Title: " +:+ rest.
Proof.
  unfold fragment.
  destruct (get_prop result "metadata") as [metadata|e0] eqn:Hm; cbn [mbind Result_bind];
    [| discriminate].
  destruct (get_prop metadata "page_title") as [title|e0] eqn:Ht; cbn [mbind Result_bind];
    [| discriminate].
  destruct (to_string title) as [title_text|e0]; cbn [mbind Result_bind]; [| discriminate].
  destruct (get_prop metadata "content") as [content|e0]; cbn [mbind Result_bind];
    [| discriminate].
  destruct (to_string content) as [content_text|e0]; cbn [mbind Result_bind];
    [| discriminate].
  intros [= <-]. split; [| eauto].
  destruct result; try reflexivity; cbn [get_prop] in Hm; try discriminate;
    injection Hm as <-; discriminate.
Qed.

Lemma loop_throws (matches : list Val) (text : string) (first : Val) (e : Exn Num) :
  loop matches text first = Throw e -> e = TypeError.
Proof.
  revert text first. induction matches as [|result rest IH]; intros text first;
    cbn [loop]; [discriminate |].
  destruct (fragment result) as [t|e0] eqn:Hf; cbn [mbind Result_bind].
  - apply IH.
  - intros [= <-]. by eapply fragment_throws.
Qed.

Lemma loop_ok (matches : list Val) (text : string) (first : Val) (s : string) (first' : Val) :
  loop matches text first = Ok (s, first') ->
  exists tail,
    s = text +:+ tail /\
    (truthy first = true -> first' = first) /\
    (matches = [] -> tail = "" /\ first' = first) /\
    (matches <> [] -> truthy first' = true /\ exists rest, tail = "Page Title: " +:+ rest).
Proof.
  revert text first s first'.
  induction matches as [|result rest IH]; intros text first s first'; cbn [loop].
  - intros [= <- <-]. exists "". rewrite string_app_nil_r. repeat split; congruence.
  - destruct (fragment result) as [t|e0] eqn:Hf; cbn [mbind Result_bind]; [| discriminate].
    destruct (fragment_ok _ _ Hf) as (Hresult & r0 & ->).
    intros (tail & -> & Hkeep & _ & _)%IH.
    assert (Hfirst : truthy (if negb (truthy first) then result else first) = true).
    { destruct (truthy first) eqn:Hb; cbn [negb]; assumption. }
    exists (("Page Title: " +:+ r0) +:+ tail).
    split; [apply string_app_assoc |]. rewrite (Hkeep Hfirst). split; [| split].
    + intros Hb. rewrite Hb. reflexivity.
    + discriminate.
    + intros _. split; [exact Hfirst |]. exists (r0 +:+ tail).
      apply (string_app_assoc "Page Title: " r0 tail).
Qed.

(** What [render] can return: the text for no result or a text that starts
    with the first label; and what it can throw: a [TypeError]. *)
Lemma render_ok (results : Val) (text : string) :
  render results = Ok text ->
  text = NO_RESULTS \/ exists rest, text = "Page Title: " +:+ rest.
Proof.
  unfold render.
  destruct (get_prop results "matches") as [matches|e0]; cbn [mbind Result_bind];
    [| discriminate].
  destruct (iterate matches) as [visited|e0]; cbn [mbind Result_bind]; [| discriminate].
  destruct (loop visited "" JNull) as [[s first']|e0] eqn:Hloop; cbn [mbind Result_bind];
    [| discriminate].
  destruct (loop_ok _ _ _ _ _ Hloop) as (tail & -> & _ & Hnil & Hcons).
  destruct visited as [|result rest].
  - destruct (Hnil eq_refl) as [_ ->]. cbn [truthy negb]. intros [= <-]. by left.
  - destruct (Hcons ltac:(discriminate)) as (-> & r0 & ->). cbn [negb].
    intros [= <-]. right. by exists r0.
Qed.

Lemma render_throws (results : Val) (e : Exn Num) :
  render results = Throw e -> e = TypeError.
Proof.
  unfold render.
  destruct (get_prop results "matches") as [matches|e0] eqn:Hm; cbn [mbind Result_bind];
    [| intros [= <-]; by eapply get_prop_throws].
  destruct (iterate matches) as [visited|e0] eqn:Hi; cbn [mbind Result_bind].
  2:{ intros [= <-]. destruct matches; cbn [iterate] in Hi; congruence. }
  destruct (loop visited "" JNull) as [[s first']|e0] eqn:Hloop; cbn [mbind Result_bind].
  - destruct (negb (truthy first')); discriminate.
  - intros [= <-]. by eapply loop_throws.
Qed.

(** The loop stops at a match that has no metadata. *)
Lemma loop_stops (matches : list Val) (text : string) (first : Val) :
  Exists (fun result => get_prop result "metadata" = Ok JUndefined) matches ->
  loop matches text first = Throw TypeError.
Proof.
  intros Hbad. revert text first.
  induction Hbad as [result rest Hm | result rest _ IH]; intros text first; cbn [loop].
  - unfold fragment. rewrite Hm. reflexivity.
  - destruct (fragment result) as [t|e0] eqn:Hf; cbn [mbind Result_bind]; [apply IH |].
    by rewrite (fragment_throws _ _ Hf).
Qed.

(** *** More about [_call] *)

(** X1. The only exception that leaves [_call] is the validation error of
    the schema: it is thrown for an input whose [query] is not a string, and
    then nothing has been called or logged. *)
Theorem only_validation_errors_escape (this : Tool) (data : Val)
    (tr tr' : list (Event Num)) (e : Exn Num) :
  _call this data tr = (Throw e, tr') ->
  e = ZodError /\ tr' = tr /\ forall s, get_prop data "query" <> Ok (JStr s).
Proof.
  intros Hthrow.
  destruct (schema_parse data) as [query|e0] eqn:Hq.
  - destruct (_call_returns this data query tr Hq) as (text & tr'' & Hok). congruence.
  - assert (Hno : forall s, get_prop data "query" <> Ok (JStr s)).
    { intros s Hs%schema_parse_ok. congruence. }
    rewrite (_call_rejects this data tr Hno) in Hthrow.
    injection Hthrow as <- <-. auto.
Qed.

(** X2. When the embedding service throws, [_call] hands the thrown value to
    [logger.error], returns the error text and never queries the index. *)
Theorem embedding_failure_skips_index (this : Tool) (data : Val) (query : string)
    (thrown : Val) (tr : list (Event Num)) :
  get_prop data "query" = Ok (JStr query) ->
  getEmbeddings (openAIClient this) EMBEDDING_MODEL (JStr query) = inl thrown ->
  _call this data tr =
    (Ok "There was an error with the Pinecone search.",
     tr ++ [EvGetEmbeddings "text-embedding-3-large" (JStr query);
            EvLogError "Pinecone search request failed" (External thrown)])%list.
Proof.
  intros Hq%schema_parse_ok He.
  apply (_call_embedding_fails this data query (External thrown) tr Hq).
  by rewrite He.
Qed.

(** X3. When the embedding service answers with an empty list of records,
    reading the first record fails: [_call] logs a [TypeError], returns the
    error text and never queries the index. *)
Theorem empty_embedding_response_is_an_error (this : Tool) (data : Val) (query : string)
    (response : Val) (tr : list (Event Num)) :
  get_prop data "query" = Ok (JStr query) ->
  getEmbeddings (openAIClient this) EMBEDDING_MODEL (JStr query) = inr response ->
  get_prop response "data" = Ok (JArr []) ->
  _call this data tr =
    (Ok "There was an error with the Pinecone search.",
     tr ++ [EvGetEmbeddings "text-embedding-3-large" (JStr query);
            EvLogError "Pinecone search request failed" TypeError])%list.
Proof.
  intros Hq%schema_parse_ok He Hd.
  apply (_call_embedding_fails this data query TypeError tr Hq).
  rewrite He. cbn [external mbind Result_bind]. unfold first_embedding. by rewrite Hd.
Qed.

(** X4. When the index throws, [_call] has sent it one request, hands the
    thrown value to [logger.error] and returns the error text. *)
Theorem index_failure_is_logged (this : Tool) (data : Val) (query : string)
    (response v thrown : Val) (tr : list (Event Num)) :
  get_prop data "query" = Ok (JStr query) ->
  getEmbeddings (openAIClient this) EMBEDDING_MODEL (JStr query) = inr response ->
  first_embedding response = Ok v ->
  index_query (index this) (request_for v) = inl thrown ->
  _call this data tr =
    (Ok "There was an error with the Pinecone search.",
     tr ++ [EvGetEmbeddings "text-embedding-3-large" (JStr query);
            EvIndexQuery {| vector := v; topK := 3; includeMetadata := true |};
            EvLogError "Pinecone search request failed" (External thrown)])%list.
Proof.
  intros Hq%schema_parse_ok He Hv Hr.
  rewrite (_call_embedded this data query v tr Hq (embedded _ _ _ _ He Hv)), Hr.
  reflexivity.
Qed.

(** X5. One match without metadata spoils the whole answer: whatever the
    other matches are, [_call] logs a [TypeError] and returns the error
    text. *)
Theorem match_without_metadata_spoils_all (this : Tool) (data : Val) (query : string)
    (response v results : Val) (matches : list Val) (tr : list (Event Num)) :
  get_prop data "query" = Ok (JStr query) ->
  getEmbeddings (openAIClient this) EMBEDDING_MODEL (JStr query) = inr response ->
  first_embedding response = Ok v ->
  index_query (index this) (request_for v) = inr results ->
  get_prop results "matches" = Ok (JArr matches) ->
  Exists (fun result => get_prop result "metadata" = Ok JUndefined) matches ->
  _call this data tr =
    (Ok "There was an error with the Pinecone search.",
     tr ++ [EvGetEmbeddings "text-embedding-3-large" (JStr query);
            EvIndexQuery {| vector := v; topK := 3; includeMetadata := true |};
            EvLogError "Pinecone search request failed" TypeError])%list.
Proof.
  intros Hq He Hv Hr Hm Hbad.
  rewrite (_call_answered this data query response v results tr Hq He Hv Hr).
  unfold render. rewrite Hm. cbn [mbind Result_bind iterate].
  rewrite (loop_stops matches "" JNull Hbad). reflexivity.
Qed.

(** X6. An answer of the index whose [matches] is neither an array nor a
    string (it is missing, say) is an error, not an empty result: [_call]
    logs a [TypeError] and returns the error text. *)
Theorem answer_without_matches_is_an_error (this : Tool) (data : Val) (query : string)
    (response v results matches : Val) (tr : list (Event Num)) :
  get_prop data "query" = Ok (JStr query) ->
  getEmbeddings (openAIClient this) EMBEDDING_MODEL (JStr query) = inr response ->
  first_embedding response = Ok v ->
  index_query (index this) (request_for v) = inr results ->
  get_prop results "matches" = Ok matches ->
  (forall elems, matches <> JArr elems) ->
  (forall s, matches <> JStr s) ->
  _call this data tr =
    (Ok "There was an error with the Pinecone search.",
     tr ++ [EvGetEmbeddings "text-embedding-3-large" (JStr query);
            EvIndexQuery {| vector := v; topK := 3; includeMetadata := true |};
            EvLogError "Pinecone search request failed" TypeError])%list.
Proof.
  intros Hq He Hv Hr Hm Harr Hstr.
  rewrite (_call_answered this data query response v results tr Hq He Hv Hr).
  unfold render. rewrite Hm. cbn [mbind Result_bind].
  destruct matches as [| | b | n | s | elems | props]; try reflexivity.
  - by destruct (Hstr s).
  - by destruct (Harr elems).
Qed.

(** X7. For a valid input, [_call] returns one of three kinds of text: the
    error text, and then it has logged exactly one error; or the text for no
    result, or a text that starts with "Page Title: ", and then it has
    logged no error. *)
Theorem returned_text_tells_the_outcome (this : Tool) (data : Val) (query : string)
    (tr : list (Event Num)) :
  get_prop data "query" = Ok (JStr query) ->
  exists text new,
    _call this data tr = (Ok text, tr ++ new)%list /\
    ((text = "There was an error with the Pinecone search." /\
      exists e, logged_errors new = [e]) \/
     ((text = "No results found for the query." \/
       exists rest, text = "Page Title: " +:+ rest) /\
      logged_errors new = [])).
Proof.
  intros Hq%schema_parse_ok.
  destruct (data ← external (getEmbeddings (openAIClient this) EMBEDDING_MODEL (JStr query));
            first_embedding data) as [v|e] eqn:He.
  - rewrite (_call_embedded this data query v tr Hq He).
    destruct (external (index_query _ _) ≫= _) as [text|e] eqn:Hr.
    + do 2 eexists. split; [reflexivity |]. right. split; [| reflexivity].
      destruct (index_query _ _) as [x|results]; [discriminate |].
      by apply (render_ok results).
    + do 2 eexists. split; [reflexivity |]. left. split; [reflexivity |].
      by exists e.
  - rewrite (_call_embedding_fails this data query e tr Hq He).
    do 2 eexists. split; [reflexivity |]. left. split; [reflexivity |]. by exists e.
Qed.

(** X8. Whatever its input and whatever the services do, the calls to the
    services that one run of [_call] adds to the trace are, in this order:
    none; or one call to the embedding service; or one call to the embedding
    service followed by one request to the index, for 3 matches with their
    metadata. The index is never asked first, and nothing is retried. *)
Theorem at_most_one_call_each (this : Tool) (data : Val) (tr : list (Event Num)) :
  exists new : list (Event Num),
    (_call this data tr).2 = (tr ++ new)%list /\
    (service_calls new = [] \/
     (exists query,
        service_calls new = [EvGetEmbeddings "text-embedding-3-large" (JStr query)]) \/
     (exists query v,
        service_calls new =
          [EvGetEmbeddings "text-embedding-3-large" (JStr query);
           EvIndexQuery {| vector := v; topK := 3; includeMetadata := true |}])).
Proof.
  destruct (schema_parse data) as [query|e0] eqn:Hq.
  - destruct (data ← external (getEmbeddings (openAIClient this) EMBEDDING_MODEL (JStr query));
              first_embedding data) as [v|e] eqn:He.
    + rewrite (_call_embedded this data query v tr Hq He).
      destruct (external (index_query _ _) ≫= _); cbn [snd];
        eexists; (split; [reflexivity |]); right; right; by exists query, v.
    + rewrite (_call_embedding_fails this data query e tr Hq He). cbn [snd].
      eexists. split; [reflexivity |]. right; left. by exists query.
  - assert (Hno : forall s, get_prop data "query" <> Ok (JStr s)).
    { intros s Hs%schema_parse_ok. congruence. }
    rewrite (_call_rejects this data tr Hno). cbn [snd].
    exists []. split; [by rewrite app_nil_r | by left].
Qed.




(** X10. [queryToEmbeddings] catches nothing: what the embedding service
    throws is thrown on, after the one call to the service. *)
Theorem queryToEmbeddings_propagates (this : Tool) (query thrown : Val)
    (tr : list (Event Num)) :
  getEmbeddings (openAIClient this) EMBEDDING_MODEL query = inl thrown ->
  queryToEmbeddings this query tr =
    (Throw (External thrown), tr ++ [EvGetEmbeddings "text-embedding-3-large" query])%list.
Proof. intros He. rewrite queryToEmbeddings_run, He. reflexivity. Qed.

(** X15. [_call] reads nothing of its input but [query]: two inputs with
    the same [query] string, whatever else they hold, give the same calls
    and the same result. *)
Theorem only_the_query_is_read (this : Tool) (data1 data2 : Val) (query : string)
    (tr : list (Event Num)) :
  get_prop data1 "query" = Ok (JStr query) ->
  get_prop data2 "query" = Ok (JStr query) ->
  _call this data1 tr = _call this data2 tr.
Proof.
  intros H1%schema_parse_ok H2%schema_parse_ok. unfold _call. rewrite H1, H2.
  reflexivity.
Qed.

(** *** More about the constructor *)

(** The default of the parameter replaces [undefined] only: on [null] the
    first read of a property throws. *)
Lemma constructor_null (env : gmap string string) (tr : list (Event Num)) :
  constructor JNull env tr = (Throw TypeError, tr).
Proof. reflexivity. Qed.

(** Any other argument is read as the object of its own properties. *)
Lemma constructor_fields_of (arg : Val) (env : gmap string string) (tr : list (Event Num)) :
  arg <> JNull ->
  constructor arg env tr = constructor (JObj (fields_of arg)) env tr.
Proof.
  intros Hnull. destruct arg; try reflexivity; try congruence;
    unfold constructor; cbn [get_prop fields_of]; rewrite !lookup_empty; reflexivity.
Qed.

Lemma configured_blank (fields : gmap string Val) (env : gmap string string) (key : string) :
  truthy (override fields key) = false ->
  env !! key = None \/ env !! key = Some "" ->
  truthy (configured fields env key) = false.
Proof.
  intros Ho Henv. unfold configured, js_or, process_env. rewrite Ho.
  destruct Henv as [-> | ->]; reflexivity.
Qed.

Lemma configured_agree (fields : gmap string Val) (env1 env2 : gmap string string)
    (key : string) :
  (truthy (override fields key) = false -> env1 !! key = env2 !! key) ->
  configured fields env1 key = configured fields env2 key.
Proof.
  intros Hagree. unfold configured, js_or, process_env.
  destruct (truthy (override fields key)); [reflexivity |]. by rewrite Hagree.
Qed.

(** X11. Whatever the argument and the environment, a tool that the
    constructor returns is named "pinecone" and holds truthy keys and a
    truthy name of the index: none of the three is [undefined] or empty. *)
Theorem built_tool_is_configured (arg : Val) (env : gmap string string)
    (tr tr' : list (Event Num)) (tool : Tool) :
  constructor arg env tr = (Ok tool, tr') ->
  name tool = "pinecone" /\
  truthy (pineconeApiKey tool) = true /\
  truthy (openAIApiKey tool) = true /\
  truthy (pineconeIndex tool) = true.
Proof.
  intros Hbuilt.
  assert (Hnull : arg <> JNull) by (intros ->; discriminate Hbuilt).
  rewrite (constructor_fields_of arg env tr Hnull), constructor_cases in Hbuilt.
  revert Hbuilt.
  destruct (new_AzureKeyCredential _) as [x|credential]; [discriminate |].
  destruct (new_OpenAIClient _ _) as [x|openai]; [discriminate |].
  destruct (truthy (configured (fields_of arg) env "PINECONE_PROJECT_API_KEY")) eqn:Hkey;
    cbn [negb]; [| discriminate].
  destruct (truthy (configured (fields_of arg) env "AZURE_API_KEY")) eqn:Hazure;
    cbn [negb]; [| discriminate].
  destruct (new_Pinecone _) as [x|pinecone]; [discriminate |].
  destruct (to_string _) as [text|e]; [| discriminate].
  destruct (Pinecone_index _ _) as [x|handle]; [discriminate |].
  intros [= <- _]. cbn [name pineconeApiKey openAIApiKey pineconeIndex].
  repeat split; try assumption.
  unfold js_or at 1.
  destruct (truthy (configured (fields_of arg) env "PINECONE_INDEX_NAME")) eqn:Hindex;
    [exact Hindex | reflexivity].
Qed.

(** X12. A key counts as missing when it is falsy, not only when it is
    absent: with no truthy override, a variable of the environment that is
    set to the empty string leaves the constructor to throw, with nothing
    logged. *)
Theorem blank_key_counts_as_missing (fields : gmap string Val)
    (env : gmap string string) (tr : list (Event Num)) :
  (truthy (override fields "PINECONE_PROJECT_API_KEY") = false /\
   (env !! "PINECONE_PROJECT_API_KEY" = None \/ env !! "PINECONE_PROJECT_API_KEY" = Some "")) \/
  (truthy (override fields "AZURE_API_KEY") = false /\
   (env !! "AZURE_API_KEY" = None \/ env !! "AZURE_API_KEY" = Some "")) ->
  exists e : Exn Num, constructor (JObj fields) env tr = (Throw e, tr).
Proof.
  intros Hblank. rewrite constructor_cases.
  destruct (new_AzureKeyCredential _) as [x|credential]; [by eauto |].
  destruct (new_OpenAIClient _ _) as [x|openai]; [by eauto |].
  destruct (truthy (configured fields env "PINECONE_PROJECT_API_KEY")) eqn:Hkey;
    cbn [negb]; [| by eauto].
  destruct Hblank as [[Ho Henv] | [Ho Henv]].
  - rewrite (configured_blank _ _ _ Ho Henv) in Hkey. discriminate.
  - rewrite (configured_blank _ _ _ Ho Henv). cbn [negb]. eauto.
Qed.

(** X13. The environment matters only where there is no truthy override:
    two environments that agree on the names whose override is falsy give
    the same construction. In particular, with four truthy overrides the
    environment is not looked at. *)
Theorem environment_matters_only_without_override (fields : gmap string Val)
    (env1 env2 : gmap string string) (tr : list (Event Num)) :
  (forall key, key ∈ CONFIGURATION_NAMES ->
     truthy (override fields key) = false -> env1 !! key = env2 !! key) ->
  constructor (JObj fields) env1 tr = constructor (JObj fields) env2 tr.
Proof.
  intros Hagree. rewrite !constructor_cases. cbn zeta.
  rewrite (configured_agree fields env1 env2 "PINECONE_PROJECT_API_KEY"),
          (configured_agree fields env1 env2 "PINECONE_INDEX_NAME"),
          (configured_agree fields env1 env2 "AZURE_API_KEY"),
          (configured_agree fields env1 env2 "AZURE_HOST");
    [reflexivity | apply Hagree; unfold CONFIGURATION_NAMES; set_solver ..].
Qed.

(** X14. The constructor calls neither the embedding service nor the index,
    whether it succeeds or throws. *)
Theorem constructor_calls_no_service (arg : Val) (env : gmap string string)
    (tr : list (Event Num)) :
  embedding_inputs (constructor arg env tr).2 = embedding_inputs tr /\
  index_queries (constructor arg env tr).2 = index_queries tr.
Proof.
  assert (Hobject : forall fields : gmap string Val,
            embedding_inputs (constructor (JObj fields) env tr).2 = embedding_inputs tr /\
            index_queries (constructor (JObj fields) env tr).2 = index_queries tr).
  { intros fields. rewrite constructor_cases. cbn zeta.
    destruct (new_AzureKeyCredential _) as [x|credential]; [by split |].
    destruct (new_OpenAIClient _ _) as [x|openai]; [by split |].
    destruct (negb _); [by split |]. destruct (negb _); [by split |].
    destruct (new_Pinecone _) as [x|pinecone]; [by split |].
    destruct (to_string _) as [text|e];
      [destruct (Pinecone_index _ _) as [x|handle] |]; cbn [snd];
      rewrite embedding_inputs_app, index_queries_app; cbn; by rewrite !app_nil_r. }
  destruct arg as [| | b | n | s | elems | props];
    [| rewrite constructor_null; by split | .. ];
    rewrite constructor_fields_of by discriminate; apply Hobject.
Qed.

End Properties.

(** ** The claims on the sample platform *)

Section Runs.

Import Sample.

#[local] Abbreviation served := (tool embeds (finds [paris; france])).

(** The scenario of the specification: two matches, Paris then France. *)
Lemma search_concatenates_matches_witness :
  (_call served (ask (JStr "capital of France")) []).1 =
    Ok "Page Title: Paris Content: Paris is the capital. Page Title: France Content: France is a country. ".
Proof.
  apply (search_concatenates_matches served (ask (JStr "capital of France"))
           "capital of France" embedding_response (JArr [JNum Tenth; JNum Fifth])
           (object [("matches", JArr [paris; france])]) [paris; france]
           [("Paris", "Paris is the capital."); ("France", "France is a country.")] []).
  - vm_compute; reflexivity.
  - reflexivity.
  - vm_compute; reflexivity.
  - reflexivity.
  - vm_compute; reflexivity.
  - repeat constructor.
    + exists (list_to_map [("page_title", JStr "Paris"); ("content", JStr "Paris is the capital.")]).
      repeat split; vm_compute; reflexivity.
    + exists (list_to_map [("page_title", JStr "France"); ("content", JStr "France is a country.")]).
      repeat split; vm_compute; reflexivity.
  - cbn; lia.
Defined.

(** The embedding service is down. *)
Lemma search_converts_service_errors_witness :
  exists tr',
    _call (tool embedding_down (finds [paris])) (ask (JStr "capital of France")) [] =
      (Ok "There was an error with the Pinecone search.", tr').
Proof.
  apply (search_converts_service_errors (tool embedding_down (finds [paris]))
           (ask (JStr "capital of France")) "capital of France" []).
  - vm_compute; reflexivity.
  - left. exists (JStr "ECONNREFUSED"). reflexivity.
Defined.

(** The index is down: the error text again, after one call to each service. *)
Example index_down_run :
  _call (tool embeds index_down) (ask (JStr "capital of France")) [] =
    (Ok "There was an error with the Pinecone search.",
     [EvGetEmbeddings "text-embedding-3-large" (JStr "capital of France");
      EvIndexQuery (request_for (JArr [JNum Tenth; JNum Fifth]));
      EvLogError "Pinecone search request failed" (External (JStr "ETIMEDOUT"))]).
Proof. vm_compute; reflexivity. Qed.

(** The index has nothing to return. *)
Lemma search_reports_no_results_witness :
  (_call (tool embeds (finds [])) (ask (JStr "capital of France")) []).1 =
    Ok "No results found for the query.".
Proof.
  apply (search_reports_no_results (tool embeds (finds [])) (ask (JStr "capital of France"))
           "capital of France" embedding_response (JArr [JNum Tenth; JNum Fifth])
           (object [("matches", JArr [])]) []);
    vm_compute; reflexivity.
Defined.

(** A [query] that is a number. *)
Lemma invalid_input_raises_before_any_call_witness :
  _call served (ask (JNum Tenth)) [] = (Throw ZodError, []).
Proof.
  apply (invalid_input_raises_before_any_call served (ask (JNum Tenth)) []).
  intros s. vm_compute. discriminate.
Defined.

(** No [query] at all. *)
Example missing_query_run : _call served (object []) [] = (Throw ZodError, []).
Proof. vm_compute; reflexivity. Qed.

(** C5, as the claim states it, fails: the schema accepts the empty string,
    which [_call] then sends to the embedding service. *)
Lemma empty_query_reaches_embedding :
  schema_parse (ask (JStr "")) = (Ok "" : Result (Exn Double) string) /\
  embedding_inputs (_call served (ask (JStr "")) []).2 = [JStr ""].
Proof. split; vm_compute; reflexivity. Qed.

(** No key for the vector database, neither as an override nor in the
    environment. *)
Lemma construction_requires_both_keys_witness :
  exists e : Exn Double,
    constructor (Libraries0 := libraries embeds (finds []))
      (JObj (list_to_map [("AZURE_API_KEY", JStr "az-key")])) ∅ [] = (Throw e, []) /\
    (e = JsError "Missing PINECONE_PROJECT_API_KEY environment variable." \/
     e = JsError "Missing OPENAI_API_KEY environment variable." \/
     exists thrown, e = External thrown).
Proof.
  apply (construction_requires_both_keys (Libraries0 := libraries embeds (finds []))
           (list_to_map [("AZURE_API_KEY", JStr "az-key")]) ∅ []).
  left. split; vm_compute; reflexivity.
Defined.


Example missing_pinecone_key_run :
  constructor (Libraries0 := libraries embeds (finds []))
    (JObj (list_to_map [("AZURE_API_KEY", JStr "az-key")])) ∅ [] =
    (Throw (JsError "Missing PINECONE_PROJECT_API_KEY environment variable."), []).
Proof. vm_compute; reflexivity. Qed.

(** Without the key of the embedding service the credential of the client
    library is what throws, before the constructor reaches its own test. *)
Example missing_azure_key_run :
  constructor (Libraries0 := libraries embeds (finds []))
    (JObj (list_to_map [("PINECONE_PROJECT_API_KEY", JStr "pc-key")])) ∅ [] =
    (Throw (External (JStr "key must be a non-empty string")), []).
Proof. vm_compute; reflexivity. Qed.

(** The sample tool is the one the constructor builds from the sample
    overrides; it logs three lines on the way. *)
Example constructor_run :
  constructor Sample.fields ∅ [] =
    (Ok served,
     [EvLogInfo "Pinecone client: [object Object]";
      EvLogInfo "Pinecone index name: large-index";
      EvLogInfo "Pinecone index: [object Object]"]).
Proof. vm_compute; reflexivity. Qed.

(** C7, as the claim states it, fails: an override that is the empty string
    is supplied and is not used, and a variable that is set to the empty
    string does not replace the default name of the index. *)
Lemma falsy_values_fall_through :
  exists (tool : Tool (Libraries0 := libraries embeds (finds []))) tr',
    constructor (JObj fields_empty_host) env_empty_index [] = (Ok tool, tr') /\
    openAIHost tool = JStr "https://env.openai.azure.com" /\
    resolved_as_specified (fields_empty_host !! "AZURE_HOST")
      (env_empty_index !! "AZURE_HOST") None = JStr "" /\
    pineconeIndex tool = JStr "large-index" /\
    resolved_as_specified (fields_empty_host !! "PINECONE_INDEX_NAME")
      (env_empty_index !! "PINECONE_INDEX_NAME") (Some "large-index") = JStr "".
Proof.
  do 2 eexists. split; [vm_compute; reflexivity |].
  repeat split; vm_compute; reflexivity.
Qed.

Lemma configuration_resolution_witness :
  pineconeApiKey served = JStr "pc-key" /\
  pineconeIndex served = JStr "large-index" /\
  openAIApiKey served = JStr "az-key" /\
  openAIHost served = JStr "https://example.openai.azure.com".
Proof.
  pose proof (configuration_resolution
                (list_to_map [("PINECONE_PROJECT_API_KEY", JStr "pc-key");
                              ("AZURE_API_KEY", JStr "az-key");
                              ("AZURE_HOST", JStr "https://example.openai.azure.com")])
                ∅ []
                [EvLogInfo "Pinecone client: [object Object]";
                 EvLogInfo "Pinecone index name: large-index";
                 EvLogInfo "Pinecone index: [object Object]"] served) as Hresolved.
  vm_compute in Hresolved. vm_compute. exact (Hresolved eq_refl).
Defined.

Lemma embeds_then_queries_once_witness :
  (queryToEmbeddings served (JStr "capital of France") []).1 =
    Ok (JArr [JNum Tenth; JNum Fifth]) /\
  index_queries (_call served (ask (JStr "capital of France")) []).2 =
    [{| vector := JArr [JNum Tenth; JNum Fifth]; topK := 3; includeMetadata := true |}].
Proof.
  apply (embeds_then_queries_once served (ask (JStr "capital of France"))
           "capital of France" embedding_response
           (object [("embedding", JArr [JNum Tenth; JNum Fifth])])
           (JArr [JNum Tenth; JNum Fifth]) [] []);
    vm_compute; reflexivity.
Defined.

(** A match without [content], then a complete one. *)
Lemma missing_fields_print_undefined_witness :
  (_call (tool embeds (finds [untitled; paris])) (ask (JStr "Lyon")) []).1 =
    Ok "Page Title: Lyon Content: undefined Page Title: Paris Content: Paris is the capital. " /\
  (_call (tool embeds (finds [untitled; paris])) (ask (JStr "Lyon")) []).1 <>
    Ok "There was an error with the Pinecone search.".
Proof.
  apply (missing_fields_print_undefined (tool embeds (finds [untitled; paris]))
           (ask (JStr "Lyon")) "Lyon" embedding_response (JArr [JNum Tenth; JNum Fifth])
           (object [("matches", JArr [untitled; paris])]) [untitled; paris]
           [(Some "Lyon", None); (Some "Paris", Some "Paris is the capital.")] []).
  - vm_compute; reflexivity.
  - reflexivity.
  - vm_compute; reflexivity.
  - reflexivity.
  - vm_compute; reflexivity.
  - repeat constructor.
    + exists (list_to_map [("page_title", JStr "Lyon")]).
      repeat split; vm_compute; reflexivity.
    + exists (list_to_map [("page_title", JStr "Paris"); ("content", JStr "Paris is the capital.")]).
      repeat split; vm_compute; reflexivity.
  - cbn; lia.
Defined.

(** A match without metadata is another matter: reading a field of
    [undefined] throws, and the error text is returned. *)
Example no_metadata_run :
  (_call (tool embeds (finds [object [("id", JStr "doc")]])) (ask (JStr "Lyon")) []).1 =
    Ok "There was an error with the Pinecone search.".
Proof. vm_compute; reflexivity. Qed.

(** The two keys and no host: the tool is built. *)
Lemma host_is_not_checked_witness :
  exists (tool : Tool (Libraries0 := libraries embeds (finds []))) tr',
    constructor (JObj fields_keys_only) ∅ [] = (Ok tool, tr') /\
    openAIHost tool = JUndefined.
Proof.
  assert (Hfields : fields_keys_only !! "AZURE_HOST" = None) by (vm_compute; reflexivity).
  assert (Henv : (∅ : gmap string string) !! "AZURE_HOST" = None) by (vm_compute; reflexivity).
  apply (proj2 (host_is_not_checked (Libraries0 := libraries embeds (finds []))
                  fields_keys_only ∅ [] Hfields Henv)
           (JStr "az-key") (JUndefined, JStr "az-key") (JStr "pc-key") "large-index"
           (JStr "pc-key", JStr "large-index"));
    vm_compute; reflexivity.
Defined.

(** *** Further runs *)

Lemma only_validation_errors_escape_witness :
  (ZodError : Exn Double) = ZodError /\
  ([] : list (Event Double)) = [] /\
  forall s, get_prop (ask (JNum Tenth)) "query" <> Ok (JStr s).
Proof.
  apply (only_validation_errors_escape served (ask (JNum Tenth)) [] [] ZodError).
  vm_compute; reflexivity.
Defined.

Lemma embedding_failure_skips_index_witness :
  _call (tool embedding_down (finds [paris])) (ask (JStr "capital of France")) [] =
    (Ok "There was an error with the Pinecone search.",
     [] ++ [EvGetEmbeddings "text-embedding-3-large" (JStr "capital of France");
            EvLogError "Pinecone search request failed" (External (JStr "ECONNREFUSED"))])%list.
Proof.
  apply (embedding_failure_skips_index (tool embedding_down (finds [paris]))
           (ask (JStr "capital of France")) "capital of France" (JStr "ECONNREFUSED") []).
  - vm_compute; reflexivity.
  - reflexivity.
Defined.

Lemma empty_embedding_response_is_an_error_witness :
  _call (tool embeds_nothing (finds [paris])) (ask (JStr "capital of France")) [] =
    (Ok "There was an error with the Pinecone search.",
     [] ++ [EvGetEmbeddings "text-embedding-3-large" (JStr "capital of France");
            EvLogError "Pinecone search request failed" TypeError])%list.
Proof.
  apply (empty_embedding_response_is_an_error (tool embeds_nothing (finds [paris]))
           (ask (JStr "capital of France")) "capital of France"
           (object [("data", JArr [])]) []).
  - vm_compute; reflexivity.
  - reflexivity.
  - vm_compute; reflexivity.
Defined.

Lemma index_failure_is_logged_witness :
  _call (tool embeds index_down) (ask (JStr "capital of France")) [] =
    (Ok "There was an error with the Pinecone search.",
     [] ++ [EvGetEmbeddings "text-embedding-3-large" (JStr "capital of France");
            EvIndexQuery {| vector := JArr [JNum Tenth; JNum Fifth]; topK := 3;
                            includeMetadata := true |};
            EvLogError "Pinecone search request failed" (External (JStr "ETIMEDOUT"))])%list.
Proof.
  apply (index_failure_is_logged (tool embeds index_down)
           (ask (JStr "capital of France")) "capital of France" embedding_response
           (JArr [JNum Tenth; JNum Fifth]) (JStr "ETIMEDOUT") []).
  - vm_compute; reflexivity.
  - reflexivity.
  - vm_compute; reflexivity.
  - reflexivity.
Defined.

(** A complete match followed by one without metadata. *)
Lemma match_without_metadata_spoils_all_witness :
  _call (tool embeds (finds [paris; bare])) (ask (JStr "capital of France")) [] =
    (Ok "There was an error with the Pinecone search.",
     [] ++ [EvGetEmbeddings "text-embedding-3-large" (JStr "capital of France");
            EvIndexQuery {| vector := JArr [JNum Tenth; JNum Fifth]; topK := 3;
                            includeMetadata := true |};
            EvLogError "Pinecone search request failed" TypeError])%list.
Proof.
  apply (match_without_metadata_spoils_all (tool embeds (finds [paris; bare]))
           (ask (JStr "capital of France")) "capital of France" embedding_response
           (JArr [JNum Tenth; JNum Fifth]) (object [("matches", JArr [paris; bare])])
           [paris; bare] []).
  - vm_compute; reflexivity.
  - reflexivity.
  - vm_compute; reflexivity.
  - reflexivity.
  - vm_compute; reflexivity.
  - apply Exists_cons_tl, Exists_cons_hd. vm_compute; reflexivity.
Defined.

Lemma answer_without_matches_is_an_error_witness :
  _call (tool embeds answers_empty_object) (ask (JStr "capital of France")) [] =
    (Ok "There was an error with the Pinecone search.",
     [] ++ [EvGetEmbeddings "text-embedding-3-large" (JStr "capital of France");
            EvIndexQuery {| vector := JArr [JNum Tenth; JNum Fifth]; topK := 3;
                            includeMetadata := true |};
            EvLogError "Pinecone search request failed" TypeError])%list.
Proof.
  apply (answer_without_matches_is_an_error (tool embeds answers_empty_object)
           (ask (JStr "capital of France")) "capital of France" embedding_response
           (JArr [JNum Tenth; JNum Fifth]) (object []) JUndefined []).
  - vm_compute; reflexivity.
  - reflexivity.
  - vm_compute; reflexivity.
  - reflexivity.
  - vm_compute; reflexivity.
  - discriminate.
  - discriminate.
Defined.

Lemma returned_text_tells_the_outcome_witness :
  exists text new,
    _call served (ask (JStr "capital of France")) [] = (Ok text, [] ++ new)%list /\
    ((text = "There was an error with the Pinecone search." /\
      exists e, logged_errors new = [e]) \/
     ((text = "No results found for the query." \/
       exists rest, text = "Page Title: " +:+ rest) /\
      logged_errors new = [])).
Proof.
  apply (returned_text_tells_the_outcome served (ask (JStr "capital of France"))
           "capital of France" []).
  vm_compute; reflexivity.
Defined.


Example tagged_run :
  (_call (tool embeds (finds [tagged])) (ask (JStr "Lyon")) []).1 =
    Ok "Page Title: Lyon Content: city,river ".
Proof. vm_compute; reflexivity. Qed.

Lemma queryToEmbeddings_propagates_witness :
  queryToEmbeddings (tool embedding_down (finds [])) (JStr "capital of France") [] =
    (Throw (External (JStr "ECONNREFUSED")),
     [] ++ [EvGetEmbeddings "text-embedding-3-large" (JStr "capital of France")])%list.
Proof.
  apply (queryToEmbeddings_propagates (tool embedding_down (finds []))
           (JStr "capital of France") (JStr "ECONNREFUSED") []).
  reflexivity.
Defined.

Lemma built_tool_is_configured_witness :
  name served = "pinecone" /\
  truthy (pineconeApiKey served) = true /\
  truthy (openAIApiKey served) = true /\
  truthy (pineconeIndex served) = true.
Proof.
  apply (built_tool_is_configured Sample.fields ∅ []
           [EvLogInfo "Pinecone client: [object Object]";
            EvLogInfo "Pinecone index name: large-index";
            EvLogInfo "Pinecone index: [object Object]"] served).
  vm_compute; reflexivity.
Defined.

(** The key of the vector database is set, to nothing. *)
Lemma blank_key_counts_as_missing_witness :
  exists e : Exn Double,
    constructor (Libraries0 := libraries embeds (finds [])) (JObj ∅) env_blank_key [] =
      (Throw e, []).
Proof.
  apply (blank_key_counts_as_missing (Libraries0 := libraries embeds (finds []))
           ∅ env_blank_key []).
  left. split; [| right]; vm_compute; reflexivity.
Defined.

(** With the four overrides, an empty environment and a full one give the
    same construction. *)
Lemma environment_matters_only_without_override_witness :
  constructor (Libraries0 := libraries embeds (finds [])) (JObj fields_complete) ∅ [] =
  constructor (Libraries0 := libraries embeds (finds [])) (JObj fields_complete)
    env_complete [].
Proof.
  apply (environment_matters_only_without_override
           (Libraries0 := libraries embeds (finds [])) fields_complete ∅ env_complete []).
  intros key Hin Hfalsy. unfold CONFIGURATION_NAMES in Hin.
  rewrite !elem_of_cons, elem_of_nil in Hin.
  destruct Hin as [-> | [-> | [-> | [-> | []]]]]; vm_compute in Hfalsy; discriminate Hfalsy.
Defined.

(** An input with a second field. *)
Lemma only_the_query_is_read_witness :
  _call served (object [("query", JStr "capital of France"); ("limit", JNum Tenth)]) [] =
  _call served (ask (JStr "capital of France")) [].
Proof.
  apply (only_the_query_is_read served
           (object [("query", JStr "capital of France"); ("limit", JNum Tenth)])
           (ask (JStr "capital of France")) "capital of France" []);
    vm_compute; reflexivity.
Defined.

End Runs.
